(** * simple-log: a shallow embedding of [log.h] and its properties

    [log.h] keeps one process-wide record [L] (user data, lock hook, file
    sink, threshold, quiet flag), five setters and the emission routine
    [log_log].  The embedding follows the source function by function:

    - the C library conversions the routine relies on ([strftime] with the
      two patterns of the source, the [printf] directives %s, %-5s, %d and
      %.6lf) are written out as executable functions on strings;
    - the nanosecond count of the clock is an integer, its conversion to
      seconds is IEEE binary64 arithmetic on primitive floats, and the two
      divisor literals of the source are read digit by digit;
    - every effect on the outside world (clock queries, mutex operations,
      hook invocations, stream writes and flushes) is appended to a trace
      carried by a small state-and-error monad;
    - indexing [level_names] and [level_colors] is checked: an index outside
      the table stops the run in the [Fault] outcome, which stands for the
      undefined behaviour of the C++ program from that point on;
    - the lock hook is foreign code: a call of it is recorded in the trace,
      and its body is taken not to write [L]. *)

From Stdlib Require Import ZArith List String Ascii Bool Lia.
From Stdlib Require Import DecimalString.
From Stdlib Require Import PrimFloat SpecFloat FloatOps.
Import ListNotations.

Local Open Scope Z_scope.
Local Open Scope string_scope.

(** ** The C library conversions used by the source *)

Module Fmt.

(** The newline and escape characters of the format strings. *)
Definition nl : ascii := ascii_of_nat 10.
Definition esc : ascii := ascii_of_nat 27.
Definition NL : string := String nl EmptyString.

(** [%d]: signed decimal. *)
Definition fmt_d (z : Z) : string := NilZero.string_of_int (Z.to_int z).

(** [%s]. *)
Definition fmt_s (s : string) : string := s.

Fixpoint spaces (n : nat) : string :=
  match n with
  | O => EmptyString
  | S k => String " " (spaces k)
  end.

Fixpoint zeros (n : nat) : string :=
  match n with
  | O => EmptyString
  | S k => String "0" (zeros k)
  end.

(** [%-5s] and friends: left-justified in a field of [w], never truncated. *)
Definition fmt_s_left (w : nat) (s : string) : string :=
  s ++ spaces (w - String.length s).

(** Zero-padded decimal of minimal width [w], as [strftime] prints the
    numeric fields (%H, %M, %S, %m, %d are width 2). *)
Definition fmt_0d (w : nat) (z : Z) : string :=
  if Z.ltb z 0 then fmt_d z
  else let s := fmt_d z in zeros (w - String.length s) ++ s.

(** Rounding to the nearest integer, ties to even, of [m / 2^k]. *)
Definition round_half_even_shr (m : Z) (k : Z) : Z :=
  let d := 2 ^ k in
  let q := m / d in
  let r := m mod d in
  match Z.compare (2 * r) d with
  | Lt => q
  | Gt => q + 1
  | Eq => if Z.even q then q else q + 1
  end.

(** [%.6lf] of a binary64 value: the exact value scaled by [10^6], rounded
    to nearest even, printed with six fractional digits. *)
Definition fmt_f6 (f : float) : string :=
  let sgn (s : bool) := if s then "-" else "" in
  match Prim2SF f with
  | S754_zero s => sgn s ++ "0.000000"
  | S754_infinity s => sgn s ++ "inf"
  | S754_nan => "nan"
  | S754_finite s m e =>
      let scaled :=
        if Z.leb 0 e then Z.pos m * 10 ^ 6 * 2 ^ e
        else round_half_even_shr (Z.pos m * 10 ^ 6) (- e) in
      sgn s ++ fmt_d (scaled / 10 ^ 6) ++ "." ++ fmt_0d 6 (scaled mod 10 ^ 6)
  end.

(** The broken-down time [struct tm], the fields the patterns read. *)
Record tm := mk_tm {
  tm_sec : Z;
  tm_min : Z;
  tm_hour : Z;
  tm_mday : Z;
  tm_mon : Z;
  tm_year : Z
}.

(** The two [strftime] patterns of the source. *)
Definition hms (lt : tm) : string :=
  fmt_0d 2 (tm_hour lt) ++ ":" ++ fmt_0d 2 (tm_min lt) ++ ":" ++ fmt_0d 2 (tm_sec lt).

Definition ymd_hms (lt : tm) : string :=
  fmt_d (tm_year lt + 1900) ++ "-" ++ fmt_0d 2 (tm_mon lt + 1) ++ "-"
    ++ fmt_0d 2 (tm_mday lt) ++ " " ++ hms lt.

(** [buf[strftime(buf, size, pattern, lt)] = '\0']: the expansion when it
    fits with its terminator, otherwise [strftime] returns 0 and the
    assignment leaves the empty string in [buf]. *)
Definition strftime_buf (size : nat) (expansion : string) : string :=
  if Nat.ltb (String.length expansion) size then expansion else EmptyString.

End Fmt.

Import Fmt.

(** ** Nanoseconds to seconds: the two divisions of the source *)

Module Seconds.

(** A decimal floating literal of the source text: its digits read as one
    integer, and the power of ten that places the point and applies the
    exponent.  [1e9] is [1 * 10^9]; [1000000000.0] is [10000000000 * 10^-1]. *)
Record literal := mk_literal { lit_digits : Z; lit_pow10 : Z }.

Definition lit_1e9 : literal := mk_literal 1 9.
Definition lit_1000000000_0 : literal := mk_literal 10000000000 (-1).

(** An integer as a binary64 value, rounded to nearest even: the conversion
    applied to the [long long] nanosecond count before the division. *)
Definition SF_of_Z (z : Z) : spec_float := binary_normalize prec emax z 0 false.

Definition double_of_Z (z : Z) : float := SF2Prim (SF_of_Z z).

(** The binary64 value of a literal: its exact decimal value rounded once,
    to nearest even. *)
Definition SF_of_literal (l : literal) : spec_float :=
  if Z.leb 0 (lit_pow10 l) then SF_of_Z (lit_digits l * 10 ^ lit_pow10 l)
  else
    match lit_digits l with
    | Z0 => S754_zero false
    | Zpos m =>
        SFdiv prec emax (S754_finite false m 0)
          (S754_finite false (Z.to_pos (10 ^ (- lit_pow10 l))) 0)
    | Zneg _ => S754_nan
    end.

Definition double_of_literal (l : literal) : float := SF2Prim (SF_of_literal l).

(** [count() / 1e9], the ts argument of the console [fprintf]. *)
Definition ts_console (ns : Z) : float :=
  (double_of_Z ns / double_of_literal lit_1e9)%float.

(** [count() / 1000000000.0], the ts argument of the file [fprintf]. *)
Definition ts_file (ns : Z) : float :=
  (double_of_Z ns / double_of_literal lit_1000000000_0)%float.

End Seconds.

Import Seconds.

(** ** The logger state and the outside world *)

(** The enumeration of the source; the constants are plain [int]s there. *)
Definition LOG_TRACE : Z := 0.
Definition LOG_DEBUG : Z := 1.
Definition LOG_INFO : Z := 2.
Definition LOG_WARN : Z := 3.
Definition LOG_ERROR : Z := 4.
Definition LOG_FATAL : Z := 5.

(** The static struct [L].  Pointers are addresses, [0] is the null pointer;
    [level] and [quiet] are [int]s on which the source does no arithmetic. *)
Record Logger := mk_Logger {
  udata : Z;
  lock_fn : Z;
  fp : Z;
  level : Z;
  quiet : Z
}.

(** Static storage is zero-initialised. *)
Definition L_init : Logger := mk_Logger 0 0 0 0 0.

Definition level_names : list string :=
  ["TRACE"; "DEBUG"; "INFO"; "WARN"; "ERROR"; "FATAL"].

Definition level_colors : list string :=
  [String esc "[94m"; String esc "[36m"; String esc "[32m";
   String esc "[33m"; String esc "[31m"; String esc "[35m"].

Inductive stream := Stderr | File (f : Z).

(** What a run does to the outside world, in program order.  The source
    never closes a stream; [EvClose] is in the vocabulary so that this can be
    said. *)
Inductive event :=
| EvClockNow
| EvMutexLock
| EvMutexUnlock
| EvHook (fn ud arg : Z)
| EvTime
| EvLocaltime
| EvWrite (s : stream) (bytes : string)
| EvFlush (f : Z)
| EvClose (f : Z).

(** The world: the logger state, what the two clocks answer, and the trace
    of effects so far. *)
Record World := mk_World {
  L : Logger;
  clock_ns : Z;
  local_tm : tm;
  trace : list event
}.

(** A variadic argument. *)
Inductive printf_arg :=
| PInt (z : Z)
| PStr (s : string)
| PDouble (f : float).

(** ** A state monad with a fault outcome *)

Inductive Outcome (A : Type) :=
| Done (a : A) (w : World)
| Fault (w : World).

Arguments Done {A} a w.
Arguments Fault {A} w.

Definition M (A : Type) : Type := World -> Outcome A.

Definition ret {A} (a : A) : M A := fun w => Done a w.

Definition bind {A B} (m : M A) (k : A -> M B) : M B :=
  fun w => match m w with
           | Done a w' => k a w'
           | Fault w' => Fault w'
           end.

Definition fault {A} : M A := fun w => Fault w.

Notation "x <- m ;; k" := (bind m (fun x => k))
  (at level 61, m at next level, right associativity).
Notation "m ;;; k" := (bind m (fun _ => k))
  (at level 61, right associativity).

Definition get_L : M Logger := fun w => Done (L w) w.

Definition set_L (f : Logger -> Logger) : M unit :=
  fun w => Done tt (mk_World (f (L w)) (clock_ns w) (local_tm w) (trace w)).

Definition emit (e : event) : M unit :=
  fun w => Done tt (mk_World (L w) (clock_ns w) (local_tm w) (trace w ++ [e])).

(** The world a run ends in, faulted or not. *)
Definition world_of {A} (o : Outcome A) : World :=
  match o with Done _ w => w | Fault w => w end.

Definition is_done {A} (o : Outcome A) : bool :=
  match o with Done _ _ => true | Fault _ => false end.

(** The primitives of the environment. *)
Definition high_resolution_clock_now : M Z :=
  emit EvClockNow ;;; fun w => Done (clock_ns w) w.

Definition time_now : M unit := emit EvTime.

Definition localtime : M tm :=
  emit EvLocaltime ;;; fun w => Done (local_tm w) w.

Definition fprintf (s : stream) (bytes : string) : M unit :=
  emit (EvWrite s bytes).

Definition fflush (f : Z) : M unit := emit (EvFlush f).

(** [tbl[i]] with the bounds written out. *)
Definition index (tbl : list string) (i : Z) : M string :=
  if Z.ltb i 0 then fault
  else match nth_error tbl (Z.to_nat i) with
       | Some s => ret s
       | None => fault
       end.

(** ** The functions of [log.h] *)

Definition lock : M unit :=
  l <- get_L ;;
  if Z.eqb (lock_fn l) 0 then ret tt
  else emit (EvHook (lock_fn l) (udata l) 1).

Definition unlock : M unit :=
  l <- get_L ;;
  if Z.eqb (lock_fn l) 0 then ret tt
  else emit (EvHook (lock_fn l) (udata l) 0).

Definition log_set_udata (u : Z) : M unit :=
  set_L (fun l => mk_Logger u (lock_fn l) (fp l) (level l) (quiet l)).

Definition log_set_lock (fn : Z) : M unit :=
  set_L (fun l => mk_Logger (udata l) fn (fp l) (level l) (quiet l)).

Definition log_set_fp (f : Z) : M unit :=
  set_L (fun l => mk_Logger (udata l) (lock_fn l) f (level l) (quiet l)).

Definition log_set_level (lv : Z) : M unit :=
  set_L (fun l => mk_Logger (udata l) (lock_fn l) (fp l) lv (quiet l)).

Definition log_set_quiet (enable : Z) : M unit :=
  set_L (fun l => mk_Logger (udata l) (lock_fn l) (fp l) (level l)
                    (if Z.eqb enable 0 then 0 else 1)).

(** The text of the first [fprintf] of each branch. *)
Definition console_plain (buf name : string) (ts : float) (file : string) (line : Z) : string :=
  fmt_s buf ++ " " ++ fmt_s_left 5 name ++ " (ts: " ++ fmt_f6 ts ++ ") "
    ++ fmt_s file ++ ":" ++ fmt_d line ++ ": ".

Definition console_color (buf color name : string) (ts : float) (file : string) (line : Z) : string :=
  fmt_s buf ++ " " ++ fmt_s color ++ fmt_s_left 5 name ++ String esc "[0m "
    ++ String esc "[90m(ts: " ++ fmt_f6 ts ++ ") "
    ++ fmt_s file ++ ":" ++ fmt_d line ++ ":" ++ String esc "[0m ".

Definition file_text (buf name : string) (ts : float) (file : string) (line : Z) : string :=
  fmt_s buf ++ " " ++ fmt_s_left 5 name ++ " (ts: " ++ fmt_f6 ts ++ ") "
    ++ fmt_s file ++ ":" ++ fmt_d line ++ ": ".

(** The stderr branch, under [LOG_USE_COLOR] or not. *)
Definition log_to_stderr (use_color : bool) (lv : Z) (file : string) (line : Z)
    (clock_now : Z) (lt : tm) : M unit :=
  let buf := strftime_buf 16 (hms lt) in
  (if use_color then
     color <- index level_colors lv ;;
     name <- index level_names lv ;;
     fprintf Stderr (console_color buf color name (ts_console clock_now) file line)
   else
     name <- index level_names lv ;;
     fprintf Stderr (console_plain buf name (ts_console clock_now) file line)) ;;;
  fprintf Stderr NL.

(** The file branch. *)
Definition log_to_file (f : Z) (lv : Z) (file : string) (line : Z)
    (clock_now : Z) (lt : tm) : M unit :=
  let buf := strftime_buf 32 (ymd_hms lt) in
  name <- index level_names lv ;;
  fprintf (File f) (file_text buf name (ts_file clock_now) file line) ;;;
  fprintf (File f) NL ;;;
  fflush f.

(** [log_log].  [use_color] is the compile-time switch [LOG_USE_COLOR];
    [fmt] and [args] are the format and the variadic arguments, which the
    body never reads. *)
Definition log_log (use_color : bool) (lv : Z) (file : string) (line : Z)
    (fmt : string) (args : list printf_arg) : M unit :=
  l0 <- get_L ;;
  if Z.ltb lv (level l0) then ret tt
  else
    clock_now <- high_resolution_clock_now ;;
    emit EvMutexLock ;;;
    lock ;;;
    time_now ;;;
    lt <- localtime ;;
    (l1 <- get_L ;;
     if Z.eqb (quiet l1) 0 then log_to_stderr use_color lv file line clock_now lt
     else ret tt) ;;;
    (l2 <- get_L ;;
     if Z.eqb (fp l2) 0 then ret tt
     else log_to_file (fp l2) lv file line clock_now lt) ;;;
    unlock ;;;
    emit EvMutexUnlock.

(** ** Observations on runs *)

Definition add_events (w : World) (evs : list event) : World :=
  mk_World (L w) (clock_ns w) (local_tm w) (trace w ++ evs).

(** The events a computation appends when started in [w]. *)
Definition events_of {A} (m : M A) (w : World) : list event :=
  skipn (List.length (trace w)) (trace (world_of (m w))).

Definition stream_eqb (a b : stream) : bool :=
  match a, b with
  | Stderr, Stderr => true
  | File f, File g => Z.eqb f g
  | _, _ => false
  end.

(** The chunks written to one stream, in order. *)
Fixpoint written (s : stream) (tr : list event) : list string :=
  match tr with
  | [] => []
  | EvWrite s' bytes :: tr' =>
      if stream_eqb s s' then bytes :: written s tr' else written s tr'
  | _ :: tr' => written s tr'
  end.

(** The bytes a stream received. *)
Definition bytes_on (s : stream) (tr : list event) : string :=
  String.concat "" (written s tr).

Definition is_hook (e : event) : bool :=
  match e with EvHook _ _ _ => true | _ => false end.

Definition is_mutex (e : event) : bool :=
  match e with EvMutexLock | EvMutexUnlock => true | _ => false end.

Definition is_clock (e : event) : bool :=
  match e with EvClockNow => true | _ => false end.

Definition is_file_event (e : event) : bool :=
  match e with EvWrite (File _) _ | EvFlush _ | EvClose _ => true | _ => false end.

Definition is_sink_event (e : event) : bool :=
  match e with EvWrite _ _ | EvFlush _ | EvClose _ => true | _ => false end.

(** Number of newline characters of a string. *)
Fixpoint count_nl (s : string) : nat :=
  match s with
  | EmptyString => O
  | String c s' => ((if Ascii.eqb c nl then 1 else 0) + count_nl s')%nat
  end.

(** The last character of a string. *)
Fixpoint last_char (s : string) : option ascii :=
  match s with
  | EmptyString => None
  | String c EmptyString => Some c
  | String _ s' => last_char s'
  end.

(** The levels of the enumeration. *)
Definition valid_levelb (lv : Z) : bool := Z.leb 0 lv && Z.leb lv 5.

(** The name and colour a valid level selects. *)
Definition level_name (lv : Z) : string := nth (Z.to_nat lv) level_names "".
Definition level_color (lv : Z) : string := nth (Z.to_nat lv) level_colors "".

(** The first console [fprintf] of either build. *)
Definition console_text (use_color : bool) (lv : Z) (file : string) (line : Z)
    (ns : Z) (lt : tm) : string :=
  if use_color
  then console_color (strftime_buf 16 (hms lt)) (level_color lv) (level_name lv)
         (ts_console ns) file line
  else console_plain (strftime_buf 16 (hms lt)) (level_name lv)
         (ts_console ns) file line.

Definition file_line_text (lv : Z) (file : string) (line : Z) (ns : Z) (lt : tm) : string :=
  file_text (strftime_buf 32 (ymd_hms lt)) (level_name lv) (ts_file ns) file line.

(** The events of one emitted call, by part. *)
Definition hook_events (l : Logger) (arg : Z) : list event :=
  if Z.eqb (lock_fn l) 0 then [] else [EvHook (lock_fn l) (udata l) arg].

Definition stderr_events (use_color : bool) (l : Logger) (lv : Z) (file : string)
    (line : Z) (ns : Z) (lt : tm) : list event :=
  if Z.eqb (quiet l) 0
  then [EvWrite Stderr (console_text use_color lv file line ns lt); EvWrite Stderr NL]
  else [].

Definition file_events (l : Logger) (lv : Z) (file : string) (line : Z)
    (ns : Z) (lt : tm) : list event :=
  if Z.eqb (fp l) 0 then []
  else [EvWrite (File (fp l)) (file_line_text lv file line ns lt);
        EvWrite (File (fp l)) NL; EvFlush (fp l)].

(** The events of an emitted call, in program order. *)
Definition emitted_events (c : bool) (l : Logger) (lv : Z) (file : string)
    (line : Z) (ns : Z) (lt : tm) : list event :=
  ([EvClockNow; EvMutexLock] ++ hook_events l 1 ++ [EvTime; EvLocaltime]
     ++ stderr_events c l lv file line ns lt
     ++ file_events l lv file line ns lt
     ++ hook_events l 0 ++ [EvMutexUnlock])%list.

(** A sink is on: the console is not silenced, or a file sink is set. *)
Definition sink_active (l : Logger) : bool :=
  Z.eqb (quiet l) 0 || negb (Z.eqb (fp l) 0).

(** The events of a call up to the first sink. *)
Definition entry_events (l : Logger) : list event :=
  ([EvClockNow; EvMutexLock] ++ hook_events l 1 ++ [EvTime; EvLocaltime])%list.

(** Everything of the world but [L]. *)
Definition outside_unchanged (w w' : World) : Prop :=
  clock_ns w' = clock_ns w /\ local_tm w' = local_tm w /\ trace w' = trace w.

(** ** Sequences of operations *)

Inductive op :=
| OpSetUdata (u : Z)
| OpSetLock (fn : Z)
| OpSetFp (f : Z)
| OpSetLevel (lv : Z)
| OpSetQuiet (enable : Z)
| OpLog (use_color : bool) (lv : Z) (file : string) (line : Z)
        (fmt : string) (args : list printf_arg)
| OpClocks (ns : Z) (t : tm).

(** The clocks move between calls: an environment step. *)
Definition set_clocks (ns : Z) (t : tm) : M unit :=
  fun w => Done tt (mk_World (L w) ns t (trace w)).

Definition run_op (o : op) : M unit :=
  match o with
  | OpSetUdata u => log_set_udata u
  | OpSetLock fn => log_set_lock fn
  | OpSetFp f => log_set_fp f
  | OpSetLevel lv => log_set_level lv
  | OpSetQuiet e => log_set_quiet e
  | OpLog c lv file line fmt args => log_log c lv file line fmt args
  | OpClocks ns t => set_clocks ns t
  end.

Fixpoint run_ops (os : list op) : M unit :=
  match os with
  | [] => ret tt
  | o :: os' => run_op o ;;; run_ops os'
  end.

(** ** Sample worlds *)

(** 2026-11-02 12:34:56 local time. *)
Definition tm_sample : tm := mk_tm 56 34 12 2 10 126.

(** Threshold Info, console on, no file sink, no hook. *)
Definition w_scenario : World :=
  mk_World (mk_Logger 0 0 0 LOG_INFO 0) 1500000000 tm_sample [].

(** Threshold Info, console on, file sink 9, hook 8 with user data 7. *)
Definition w_full : World :=
  mk_World (mk_Logger 7 8 9 LOG_INFO 0) 1500000000 tm_sample [].

(** Quiet, no file sink. *)
Definition w_mute : World :=
  mk_World (mk_Logger 0 0 0 LOG_TRACE 1) 1500000000 tm_sample [].

(** Arithmetic side conditions on the sample worlds. *)
Ltac concrete_lia :=
  cbv [LOG_TRACE LOG_DEBUG LOG_INFO LOG_WARN LOG_ERROR LOG_FATAL
       w_scenario w_full w_mute L level quiet fp lock_fn udata];
  lia.

(** ** The six entry points *)

(** [log_trace(...)] and its five siblings expand to [log_log] at a fixed
    level; [__FILE__] and [__LINE__] are the [file] and [line] arguments. *)
Definition log_trace (c : bool) (file : string) (line : Z) (fmt : string)
    (args : list printf_arg) : M unit := log_log c LOG_TRACE file line fmt args.
Definition log_debug (c : bool) (file : string) (line : Z) (fmt : string)
    (args : list printf_arg) : M unit := log_log c LOG_DEBUG file line fmt args.
Definition log_info (c : bool) (file : string) (line : Z) (fmt : string)
    (args : list printf_arg) : M unit := log_log c LOG_INFO file line fmt args.
Definition log_warn (c : bool) (file : string) (line : Z) (fmt : string)
    (args : list printf_arg) : M unit := log_log c LOG_WARN file line fmt args.
Definition log_error (c : bool) (file : string) (line : Z) (fmt : string)
    (args : list printf_arg) : M unit := log_log c LOG_ERROR file line fmt args.
Definition log_fatal (c : bool) (file : string) (line : Z) (fmt : string)
    (args : list printf_arg) : M unit := log_log c LOG_FATAL file line fmt args.

Inductive macro := M_trace | M_debug | M_info | M_warn | M_error | M_fatal.

Definition expand (m : macro) :
    bool -> string -> Z -> string -> list printf_arg -> M unit :=
  match m with
  | M_trace => log_trace
  | M_debug => log_debug
  | M_info => log_info
  | M_warn => log_warn
  | M_error => log_error
  | M_fatal => log_fatal
  end.

Definition macro_level (m : macro) : Z :=
  match m with
  | M_trace => LOG_TRACE
  | M_debug => LOG_DEBUG
  | M_info => LOG_INFO
  | M_warn => LOG_WARN
  | M_error => LOG_ERROR
  | M_fatal => LOG_FATAL
  end.

(** ** Further observations *)

(** The events of one call of [log_log], whatever its level. *)
Definition call_events (c : bool) (l : Logger) (lv : Z) (file : string)
    (line : Z) (ns : Z) (lt : tm) : list event :=
  if Z.ltb lv (level l) then []
  else if valid_levelb lv then emitted_events c l lv file line ns lt
  else if sink_active l then entry_events l
  else (entry_events l ++ hook_events l 0 ++ [EvMutexUnlock])%list.

(** The bytes written to the stream [f] since its last flush, given the
    bytes [acc] pending before the trace. *)
Fixpoint pending (f : Z) (tr : list event) (acc : string) : string :=
  match tr with
  | [] => acc
  | EvWrite (File g) bytes :: tr' =>
      pending f tr' (if Z.eqb f g then acc ++ bytes else acc)
  | EvFlush g :: tr' => pending f tr' (if Z.eqb f g then EmptyString else acc)
  | _ :: tr' => pending f tr' acc
  end.

Definition unflushed (f : Z) (tr : list event) : string := pending f tr EmptyString.

(** What is held at a point of a trace: the internal mutex, and above it
    the caller's lock taken through the hook. *)
Inductive held := HMutex | HHook (fn ud : Z).

Definition is_HMutex (h : held) : bool :=
  match h with HMutex => true | HHook _ _ => false end.

(** The locking discipline, checked along a trace from the stack [st] of
    what is held: the mutex is not taken twice, the hook takes the caller's
    lock only under the mutex, releases match the latest acquisition in
    kind, hook and user data, and the streams are written, flushed or closed
    only while the mutex is held.  [None] is a violation;
    otherwise the stack at the end. *)
Fixpoint discipline (tr : list event) (st : list held) : option (list held) :=
  match tr with
  | [] => Some st
  | EvMutexLock :: tr' =>
      if existsb is_HMutex st then None else discipline tr' (HMutex :: st)
  | EvMutexUnlock :: tr' =>
      match st with
      | HMutex :: st' => discipline tr' st'
      | _ => None
      end
  | EvHook fn ud a :: tr' =>
      if Z.eqb a 0 then
        match st with
        | HHook fn' ud' :: st' =>
            if Z.eqb fn fn' && Z.eqb ud ud' then discipline tr' st' else None
        | _ => None
        end
      else if existsb is_HMutex st then discipline tr' (HHook fn ud :: st)
      else None
  | EvWrite _ _ :: tr' | EvFlush _ :: tr' | EvClose _ :: tr' =>
      if existsb is_HMutex st then discipline tr' st else None
  | _ :: tr' => discipline tr' st
  end.

(** The operations whose level argument, if any, is of the enumeration:
    what a program gets from the setters and the six entry points. *)
Definition safe_op (o : op) : bool :=
  match o with
  | OpLog _ lv _ _ _ _ => valid_levelb lv
  | _ => true
  end.

(** The field a setter writes. *)
Definition setter_field (o : op) : option nat :=
  match o with
  | OpSetUdata _ => Some 0%nat
  | OpSetLock _ => Some 1%nat
  | OpSetFp _ => Some 2%nat
  | OpSetLevel _ => Some 3%nat
  | OpSetQuiet _ => Some 4%nat
  | _ => None
  end.

(** A broken-down time as [localtime] returns it, with a year of four
    digits. *)
Definition wf_tm (lt : tm) : Prop :=
  0 <= tm_sec lt <= 60 /\ 0 <= tm_min lt <= 59 /\ 0 <= tm_hour lt <= 23 /\
  1 <= tm_mday lt <= 31 /\ 0 <= tm_mon lt <= 11 /\ -900 <= tm_year lt <= 8099.

(** The date part of the file pattern, with the separating space. *)
Definition ymd_prefix (lt : tm) : string :=
  fmt_d (tm_year lt + 1900) ++ "-" ++ fmt_0d 2 (tm_mon lt + 1) ++ "-"
    ++ fmt_0d 2 (tm_mday lt) ++ " ".



Definition is_stderr_write (e : event) : bool :=
  match e with EvWrite Stderr _ => true | _ => false end.

(** ** Basic facts about the monad and the trace *)

Lemma skipn_length_app {A} (l evs : list A) :
  skipn (List.length l) (l ++ evs)%list = evs.
Proof. induction l as [|x l IH]; simpl; auto. Qed.

Lemma add_events_nil w : add_events w [] = w.
Proof. destruct w; unfold add_events; simpl. now rewrite app_nil_r. Qed.

Lemma add_events_app w e1 e2 :
  add_events (add_events w e1) e2 = add_events w (e1 ++ e2)%list.
Proof. unfold add_events; simpl. now rewrite app_assoc. Qed.

Lemma emit_eq e w : emit e w = Done tt (add_events w [e]).
Proof. reflexivity. Qed.

Lemma bind_done {A B} (m : M A) (k : A -> M B) w a w1 :
  m w = Done a w1 -> bind m k w = k a w1.
Proof. intros H. unfold bind. now rewrite H. Qed.

Lemma bind_fault {A B} (m : M A) (k : A -> M B) w w1 :
  m w = Fault w1 -> bind m k w = Fault w1.
Proof. intros H. unfold bind. now rewrite H. Qed.

Lemma world_of_bind (m k : M unit) w :
  world_of (bind m (fun _ => k) w) =
  match m w with
  | Done _ w' => world_of (k w')
  | Fault w' => w'
  end.
Proof. unfold bind. now destruct (m w). Qed.

Lemma events_of_add {A} (m : M A) w a evs :
  m w = Done a (add_events w evs) -> events_of m w = evs.
Proof.
  intros H. unfold events_of. rewrite H. simpl. apply skipn_length_app.
Qed.

Lemma events_of_fault_add {A} (m : M A) w evs :
  m w = Fault (add_events w evs) -> events_of m w = evs.
Proof.
  intros H. unfold events_of. rewrite H. simpl. apply skipn_length_app.
Qed.

Lemma events_of_same {A} (m : M A) w a : m w = Done a w -> events_of m w = [].
Proof.
  intros H. apply (events_of_add m w a). now rewrite add_events_nil.
Qed.

(** ** The level tables *)

Lemma valid_levelb_spec lv : valid_levelb lv = true <-> 0 <= lv <= 5.
Proof. unfold valid_levelb. rewrite andb_true_iff, !Z.leb_le. tauto. Qed.

Lemma valid_level_cases lv :
  0 <= lv <= 5 -> lv = 0 \/ lv = 1 \/ lv = 2 \/ lv = 3 \/ lv = 4 \/ lv = 5.
Proof. lia. Qed.

Ltac each_level H :=
  destruct (valid_level_cases _ H) as [E|[E|[E|[E|[E|E]]]]]; subst.

Lemma index_names_valid lv w :
  0 <= lv <= 5 -> index level_names lv w = Done (level_name lv) w.
Proof. intros H. each_level H; reflexivity. Qed.

Lemma index_colors_valid lv w :
  0 <= lv <= 5 -> index level_colors lv w = Done (level_color lv) w.
Proof. intros H. each_level H; reflexivity. Qed.

Lemma index_invalid (tbl : list string) lv w :
  List.length tbl = 6%nat -> ~ (0 <= lv <= 5) -> index tbl lv w = Fault w.
Proof.
  intros Hlen H. unfold index.
  destruct (Z.ltb_spec lv 0) as [Hn|Hn]; [reflexivity|].
  assert (E : nth_error tbl (Z.to_nat lv) = None).
  { apply nth_error_None. rewrite Hlen. lia. }
  now rewrite E.
Qed.

(** ** The seconds conversion *)

Lemma divisors_agree :
  double_of_literal lit_1e9 = double_of_literal lit_1000000000_0.
Proof. vm_compute. reflexivity. Qed.

Lemma ts_agree ns : ts_console ns = ts_file ns.
Proof. unfold ts_console, ts_file. now rewrite divisors_agree. Qed.

(** ** Strings: association, newlines, last character *)

Lemma append_assoc (a b c : string) : (a ++ b) ++ c = a ++ (b ++ c).
Proof. induction a as [|x a IH]; simpl; [reflexivity | now rewrite IH]. Qed.

Lemma count_nl_app a b : count_nl (a ++ b) = (count_nl a + count_nl b)%nat.
Proof.
  induction a as [|c a IH]; simpl; [reflexivity|]. rewrite IH. lia.
Qed.

Lemma count_nl_uint d : count_nl (NilEmpty.string_of_uint d) = O.
Proof. induction d; simpl; auto. Qed.

Lemma count_nl_fmt_d z : count_nl (fmt_d z) = O.
Proof.
  unfold fmt_d, NilZero.string_of_int, NilZero.string_of_uint.
  destruct (Z.to_int z) as [d|d]; destruct d; simpl; auto using count_nl_uint.
Qed.

Lemma count_nl_zeros n : count_nl (zeros n) = O.
Proof. induction n; simpl; auto. Qed.

Lemma count_nl_spaces n : count_nl (spaces n) = O.
Proof. induction n; simpl; auto. Qed.

Create Rewrite HintDb count_nl.

#[local] Hint Rewrite count_nl_app count_nl_fmt_d count_nl_zeros count_nl_spaces
  : count_nl.

Lemma count_nl_fmt_0d n z : count_nl (fmt_0d n z) = O.
Proof.
  unfold fmt_0d. destruct (Z.ltb z 0); now autorewrite with count_nl.
Qed.

#[local] Hint Rewrite count_nl_fmt_0d : count_nl.

Lemma count_nl_fmt_f6 f : count_nl (fmt_f6 f) = O.
Proof.
  unfold fmt_f6. destruct (Prim2SF f) as [s|s| |s m e];
    try (destruct s; reflexivity); try reflexivity.
  autorewrite with count_nl. now destruct s.
Qed.

Lemma count_nl_hms lt : count_nl (hms lt) = O.
Proof. unfold hms. now autorewrite with count_nl. Qed.

#[local] Hint Rewrite count_nl_fmt_f6 count_nl_hms : count_nl.

Lemma count_nl_ymd_hms lt : count_nl (ymd_hms lt) = O.
Proof. unfold ymd_hms. now autorewrite with count_nl. Qed.

Lemma count_nl_strftime_buf n s : count_nl s = O -> count_nl (strftime_buf n s) = O.
Proof. intros H. unfold strftime_buf. now destruct (Nat.ltb _ _). Qed.

Lemma count_nl_level_name lv : count_nl (level_name lv) = O.
Proof.
  unfold level_name.
  destruct (Z.to_nat lv) as [|[|[|[|[|[|n]]]]]]; try reflexivity.
  simpl. now destruct n.
Qed.

Lemma count_nl_level_color lv : count_nl (level_color lv) = O.
Proof.
  unfold level_color.
  destruct (Z.to_nat lv) as [|[|[|[|[|[|n]]]]]]; try reflexivity.
  simpl. now destruct n.
Qed.

Lemma count_nl_fmt_s_left n s : count_nl (fmt_s_left n s) = count_nl s.
Proof. unfold fmt_s_left. autorewrite with count_nl. lia. Qed.

#[local] Hint Rewrite count_nl_level_name count_nl_level_color count_nl_fmt_s_left
  : count_nl.

Lemma count_nl_console_text c lv file line ns lt :
  count_nl (console_text c lv file line ns lt) = count_nl file.
Proof.
  unfold console_text, console_color, console_plain, fmt_s. destruct c.
  - change (String esc "[0m ") with (String esc "[0m" ++ " ").
    change (String esc "[90m(ts: ") with (String esc "[90m" ++ "(ts: ").
    autorewrite with count_nl.
    rewrite (count_nl_strftime_buf _ _ (count_nl_hms lt)). simpl. lia.
  - autorewrite with count_nl.
    rewrite (count_nl_strftime_buf _ _ (count_nl_hms lt)). simpl. lia.
Qed.

Lemma count_nl_file_line_text lv file line ns lt :
  count_nl (file_line_text lv file line ns lt) = count_nl file.
Proof.
  unfold file_line_text, file_text, fmt_s. autorewrite with count_nl.
  rewrite (count_nl_strftime_buf _ _ (count_nl_ymd_hms lt)). simpl. lia.
Qed.

Lemma last_char_app_some a b c : last_char b = Some c -> last_char (a ++ b) = Some c.
Proof.
  intros H. induction a as [|x a IH]; [exact H|].
  simpl. destruct (a ++ b) eqn:E; [discriminate IH | exact IH].
Qed.

Lemma last_char_console_text c lv file line ns lt :
  last_char (console_text c lv file line ns lt) = Some " "%char.
Proof.
  unfold console_text, console_color, console_plain. destruct c;
    repeat apply last_char_app_some; reflexivity.
Qed.

Lemma last_char_file_line_text lv file line ns lt :
  last_char (file_line_text lv file line ns lt) = Some " "%char.
Proof.
  unfold file_line_text, file_text. repeat apply last_char_app_some. reflexivity.
Qed.

(** The ts field of both texts is the [%.6lf] of one value. *)
Lemma console_text_ts c lv file line ns lt :
  exists p q,
    console_text c lv file line ns lt =
    p ++ "(ts: " ++ fmt_f6 (ts_console ns) ++ ") " ++ q.
Proof.
  unfold console_text, console_color, console_plain. destruct c.
  - exists (fmt_s (strftime_buf 16 (hms lt)) ++ " " ++ fmt_s (level_color lv)
              ++ fmt_s_left 5 (level_name lv) ++ String esc "[0m "
              ++ String esc "[90m"),
           (fmt_s file ++ ":" ++ fmt_d line ++ ":" ++ String esc "[0m ").
    rewrite !append_assoc. reflexivity.
  - exists (fmt_s (strftime_buf 16 (hms lt)) ++ " " ++ fmt_s_left 5 (level_name lv)
              ++ " "),
           (fmt_s file ++ ":" ++ fmt_d line ++ ": ").
    rewrite !append_assoc. reflexivity.
Qed.

Lemma file_line_text_ts lv file line ns lt :
  exists p q,
    file_line_text lv file line ns lt =
    p ++ "(ts: " ++ fmt_f6 (ts_console ns) ++ ") " ++ q.
Proof.
  unfold file_line_text, file_text. rewrite <- ts_agree.
  exists (fmt_s (strftime_buf 32 (ymd_hms lt)) ++ " " ++ fmt_s_left 5 (level_name lv)
            ++ " "),
         (fmt_s file ++ ":" ++ fmt_d line ++ ": ").
  rewrite !append_assoc. reflexivity.
Qed.

(** ** The run of the parts of [log_log] *)

Lemma lock_eq w : lock w = Done tt (add_events w (hook_events (L w) 1)).
Proof.
  unfold lock, hook_events. rewrite (bind_done get_L _ w (L w) w eq_refl).
  destruct (Z.eqb (lock_fn (L w)) 0).
  - now rewrite add_events_nil.
  - reflexivity.
Qed.

Lemma unlock_eq w : unlock w = Done tt (add_events w (hook_events (L w) 0)).
Proof.
  unfold unlock, hook_events. rewrite (bind_done get_L _ w (L w) w eq_refl).
  destruct (Z.eqb (lock_fn (L w)) 0).
  - now rewrite add_events_nil.
  - reflexivity.
Qed.

Lemma clock_eq w :
  high_resolution_clock_now w = Done (clock_ns w) (add_events w [EvClockNow]).
Proof. reflexivity. Qed.

Lemma localtime_eq w : localtime w = Done (local_tm w) (add_events w [EvLocaltime]).
Proof. reflexivity. Qed.

(** One [fprintf] after another: the match on the first outcome reduces. *)
Ltac run_emits :=
  unfold fprintf, fflush;
  repeat (rewrite emit_eq; cbv beta iota);
  rewrite ?add_events_app.

Section Call.

Variables (c : bool) (file : string) (line : Z).
Variables (fmt : string) (args : list printf_arg).

(** The stderr branch on a level of the enumeration. *)
Lemma log_to_stderr_valid lv ns lt w :
  0 <= lv <= 5 ->
  log_to_stderr c lv file line ns lt w =
  Done tt (add_events w [EvWrite Stderr (console_text c lv file line ns lt);
                         EvWrite Stderr NL]).
Proof.
  intros H. unfold log_to_stderr, console_text, bind. destruct c.
  - rewrite (index_colors_valid lv w H), (index_names_valid lv w H).
    run_emits. reflexivity.
  - rewrite (index_names_valid lv w H). run_emits. reflexivity.
Qed.

(** The stderr branch on any other level stops at the table. *)
Lemma log_to_stderr_invalid lv ns lt w :
  ~ (0 <= lv <= 5) -> log_to_stderr c lv file line ns lt w = Fault w.
Proof.
  intros H. unfold log_to_stderr, bind. destruct c.
  - now rewrite (index_invalid level_colors lv w eq_refl H).
  - now rewrite (index_invalid level_names lv w eq_refl H).
Qed.

Lemma log_to_file_valid f lv ns lt w :
  0 <= lv <= 5 ->
  log_to_file f lv file line ns lt w =
  Done tt (add_events w [EvWrite (File f) (file_line_text lv file line ns lt);
                         EvWrite (File f) NL; EvFlush f]).
Proof.
  intros H. unfold log_to_file, file_line_text, bind.
  rewrite (index_names_valid lv w H). run_emits. reflexivity.
Qed.

Lemma log_to_file_invalid f lv ns lt w :
  ~ (0 <= lv <= 5) -> log_to_file f lv file line ns lt w = Fault w.
Proof.
  intros H. unfold log_to_file, bind.
  now rewrite (index_invalid level_names lv w eq_refl H).
Qed.

(** The two guarded steps of [log_log]. *)
Lemma stderr_step_valid lv ns lt w :
  0 <= lv <= 5 ->
  (l1 <- get_L ;;
   if Z.eqb (quiet l1) 0 then log_to_stderr c lv file line ns lt else ret tt) w =
  Done tt (add_events w (stderr_events c (L w) lv file line ns lt)).
Proof.
  intros H. rewrite (bind_done get_L _ w (L w) w eq_refl). unfold stderr_events.
  destruct (Z.eqb (quiet (L w)) 0).
  - now apply log_to_stderr_valid.
  - now rewrite add_events_nil.
Qed.

Lemma file_step_valid lv ns lt w :
  0 <= lv <= 5 ->
  (l2 <- get_L ;;
   if Z.eqb (fp l2) 0 then ret tt
   else log_to_file (fp l2) lv file line ns lt) w =
  Done tt (add_events w (file_events (L w) lv file line ns lt)).
Proof.
  intros H. rewrite (bind_done get_L _ w (L w) w eq_refl). unfold file_events.
  destruct (Z.eqb (fp (L w)) 0).
  - now rewrite add_events_nil.
  - now apply log_to_file_valid.
Qed.

(** Everything after [localtime], on a level outside the enumeration: the
    first sink that is on faults; with none on the call runs to its end. *)
Lemma tail_invalid lv ns lt w :
  ~ (0 <= lv <= 5) ->
  ((l1 <- get_L ;;
    if Z.eqb (quiet l1) 0 then log_to_stderr c lv file line ns lt else ret tt) ;;;
   (l2 <- get_L ;;
    if Z.eqb (fp l2) 0 then ret tt else log_to_file (fp l2) lv file line ns lt) ;;;
   unlock ;;;
   emit EvMutexUnlock) w =
  if sink_active (L w) then Fault w
  else Done tt (add_events w (hook_events (L w) 0 ++ [EvMutexUnlock])).
Proof.
  intros Hv. unfold sink_active.
  destruct (Z.eqb (quiet (L w)) 0) eqn:Eq; simpl orb.
  - apply bind_fault. rewrite (bind_done get_L _ w (L w) w eq_refl), Eq.
    now apply log_to_stderr_invalid.
  - erewrite bind_done.
    2:{ rewrite (bind_done get_L _ w (L w) w eq_refl), Eq. reflexivity. }
    destruct (Z.eqb (fp (L w)) 0) eqn:Ef; simpl negb; cbv iota.
    + erewrite bind_done.
      2:{ rewrite (bind_done get_L _ w (L w) w eq_refl), Ef. reflexivity. }
      rewrite (bind_done _ _ _ _ _ (unlock_eq _)).
      rewrite emit_eq, add_events_app. reflexivity.
    + apply bind_fault. rewrite (bind_done get_L _ w (L w) w eq_refl), Ef.
      now apply log_to_file_invalid.
Qed.

(** The steps of [log_log] up to and including [localtime]. *)
Ltac run_entry lv w :=
  unfold log_log; rewrite (bind_done get_L _ w (L w) w eq_refl);
  destruct (Z.ltb_spec lv (level (L w))); [lia|];
  rewrite (bind_done _ _ _ _ _ (clock_eq w));
  rewrite (bind_done _ _ _ _ _ (emit_eq EvMutexLock _));
  rewrite (bind_done _ _ _ _ _ (lock_eq _));
  rewrite (bind_done _ _ _ _ _ (emit_eq EvTime _));
  rewrite (bind_done _ _ _ _ _ (localtime_eq _)).

(** ** The three runs of [log_log] *)

Lemma log_log_suppressed lv w :
  lv < level (L w) -> log_log c lv file line fmt args w = Done tt w.
Proof.
  intros H. unfold log_log. rewrite (bind_done get_L _ w (L w) w eq_refl).
  destruct (Z.ltb_spec lv (level (L w))); [reflexivity | lia].
Qed.

Lemma log_log_emitted lv w :
  0 <= lv <= 5 -> level (L w) <= lv ->
  log_log c lv file line fmt args w =
  Done tt (add_events w
             (emitted_events c (L w) lv file line (clock_ns w) (local_tm w))).
Proof.
  intros Hv Hl. run_entry lv w.
  rewrite (bind_done _ _ _ _ _ (stderr_step_valid lv _ _ _ Hv)).
  rewrite (bind_done _ _ _ _ _ (file_step_valid lv _ _ _ Hv)).
  rewrite (bind_done _ _ _ _ _ (unlock_eq _)).
  rewrite emit_eq. rewrite !add_events_app. reflexivity.
Qed.

Lemma log_log_invalid lv w :
  ~ (0 <= lv <= 5) -> level (L w) <= lv ->
  log_log c lv file line fmt args w =
  if sink_active (L w)
  then Fault (add_events w (entry_events (L w)))
  else Done tt (add_events w (entry_events (L w) ++ hook_events (L w) 0
                                ++ [EvMutexUnlock])).
Proof.
  intros Hv Hl. run_entry lv w.
  rewrite (tail_invalid lv _ _ _ Hv).
  rewrite !add_events_app.
  change (L (add_events w _)) with (L w).
  destruct (sink_active (L w)); unfold entry_events;
    rewrite <- ?app_assoc; reflexivity.
Qed.

(** [log_log] never writes [L]. *)
Lemma log_log_keeps_L lv w :
  L (world_of (log_log c lv file line fmt args w)) = L w.
Proof.
  destruct (Z.lt_ge_cases lv (level (L w))) as [Hs|Hs].
  - now rewrite log_log_suppressed.
  - destruct (valid_levelb lv) eqn:Ev.
    + apply valid_levelb_spec in Ev. now rewrite log_log_emitted.
    + assert (Hn : ~ (0 <= lv <= 5)).
      { intros H. apply valid_levelb_spec in H. congruence. }
      rewrite log_log_invalid by assumption. now destruct (sink_active (L w)).
Qed.

End Call.

(** ** Projections of the events of a call *)

Lemma written_app s a b : written s (a ++ b) = (written s a ++ written s b)%list.
Proof.
  induction a as [|e a IH]; [reflexivity|].
  destruct e; simpl; auto. destruct (stream_eqb s s0); simpl; now rewrite ?IH.
Qed.

Lemma written_hook_events s l arg : written s (hook_events l arg) = [].
Proof. unfold hook_events. now destruct (Z.eqb (lock_fn l) 0). Qed.

Lemma filter_hook_events (p : event -> bool) l arg :
  (forall fn ud a, p (EvHook fn ud a) = false) -> filter p (hook_events l arg) = [].
Proof.
  intros H. unfold hook_events. destruct (Z.eqb (lock_fn l) 0); simpl; [reflexivity|].
  now rewrite H.
Qed.

Lemma written_stderr_emitted c l lv file line ns lt :
  written Stderr (emitted_events c l lv file line ns lt) =
  if Z.eqb (quiet l) 0 then [console_text c lv file line ns lt; NL] else [].
Proof.
  unfold emitted_events. rewrite !written_app, !written_hook_events.
  unfold stderr_events, file_events.
  destruct (Z.eqb (quiet l) 0), (Z.eqb (fp l) 0); reflexivity.
Qed.

Lemma written_file_emitted c l lv file line ns lt :
  written (File (fp l)) (emitted_events c l lv file line ns lt) =
  if Z.eqb (fp l) 0 then [] else [file_line_text lv file line ns lt; NL].
Proof.
  unfold emitted_events. rewrite !written_app, !written_hook_events.
  unfold stderr_events, file_events.
  destruct (Z.eqb (quiet l) 0), (Z.eqb (fp l) 0);
    cbn [written stream_eqb app]; rewrite ?Z.eqb_refl; reflexivity.
Qed.

Lemma file_events_emitted c l lv file line ns lt :
  filter is_file_event (emitted_events c l lv file line ns lt) =
  file_events l lv file line ns lt.
Proof.
  unfold emitted_events.
  rewrite !filter_app, !(filter_hook_events is_file_event) by reflexivity.
  unfold stderr_events, file_events.
  destruct (Z.eqb (quiet l) 0), (Z.eqb (fp l) 0); reflexivity.
Qed.

Lemma clock_events_emitted c l lv file line ns lt :
  filter is_clock (emitted_events c l lv file line ns lt) = [EvClockNow].
Proof.
  unfold emitted_events.
  rewrite !filter_app, !(filter_hook_events is_clock) by reflexivity.
  unfold stderr_events, file_events.
  destruct (Z.eqb (quiet l) 0), (Z.eqb (fp l) 0); reflexivity.
Qed.

Lemma entry_events_quiet p l :
  (forall fn ud a, p (EvHook fn ud a) = false) ->
  p EvClockNow = false -> p EvMutexLock = false -> p EvTime = false ->
  p EvLocaltime = false -> p EvMutexUnlock = false ->
  filter p (entry_events l) = [] /\
  filter p (entry_events l ++ hook_events l 0 ++ [EvMutexUnlock]) = [].
Proof.
  intros Hh H1 H2 H3 H4 H5. unfold entry_events.
  rewrite !filter_app, !(filter_hook_events p) by assumption.
  simpl. now rewrite H1, H2, H3, H4, H5.
Qed.

(** The case analysis shared by the projections: suppressed, emitted, or at
    a level outside the enumeration. *)
Lemma log_log_cases c lv file line fmt args w :
  (Z.ltb lv (level (L w)) = true /\
   events_of (log_log c lv file line fmt args) w = []) \/
  (Z.ltb lv (level (L w)) = false /\ valid_levelb lv = true /\
   events_of (log_log c lv file line fmt args) w =
   emitted_events c (L w) lv file line (clock_ns w) (local_tm w)) \/
  (Z.ltb lv (level (L w)) = false /\ valid_levelb lv = false /\
   (events_of (log_log c lv file line fmt args) w = entry_events (L w) \/
    events_of (log_log c lv file line fmt args) w =
    (entry_events (L w) ++ hook_events (L w) 0 ++ [EvMutexUnlock])%list)).
Proof.
  destruct (Z.ltb_spec lv (level (L w))) as [Hs|Hs].
  - left. split; [reflexivity|].
    apply (events_of_same _ w tt). now apply log_log_suppressed.
  - right. destruct (valid_levelb lv) eqn:Ev.
    + left. apply valid_levelb_spec in Ev. repeat split.
      apply (events_of_add _ w tt). now apply log_log_emitted.
    + right. assert (Hn : ~ (0 <= lv <= 5)).
      { intros H. apply valid_levelb_spec in H. congruence. }
      pose proof (log_log_invalid c file line fmt args lv w Hn Hs) as E.
      repeat split. destruct (sink_active (L w)).
      * left. now apply events_of_fault_add.
      * right. now apply (events_of_add _ w tt).
Qed.

(** What one call sends to the file sinks, and to stderr, in every case. *)
Lemma log_log_file_events c lv file line fmt args w :
  filter is_file_event (events_of (log_log c lv file line fmt args) w) =
  if Z.ltb lv (level (L w)) || negb (valid_levelb lv) then []
  else file_events (L w) lv file line (clock_ns w) (local_tm w).
Proof.
  destruct (entry_events_quiet is_file_event (L w)) as [E1 E2]; try reflexivity.
  destruct (log_log_cases c lv file line fmt args w)
    as [[Hs E]|[(Hs & Hv & E)|(Hs & Hv & [E|E])]]; rewrite Hs, ?Hv, E; simpl orb;
    cbv iota; auto using file_events_emitted.
Qed.

Lemma log_log_stderr_written c lv file line fmt args w :
  written Stderr (events_of (log_log c lv file line fmt args) w) =
  if Z.ltb lv (level (L w)) || negb (valid_levelb lv) then []
  else if Z.eqb (quiet (L w)) 0
       then [console_text c lv file line (clock_ns w) (local_tm w); NL]
       else [].
Proof.
  destruct (log_log_cases c lv file line fmt args w)
    as [[Hs E]|[(Hs & Hv & E)|(Hs & Hv & [E|E])]]; rewrite Hs, ?Hv, E; simpl orb;
    cbv iota; auto using written_stderr_emitted;
    unfold entry_events; now rewrite !written_app, !written_hook_events.
Qed.

(** The quiet field after one operation. *)
Lemma run_op_quiet o w :
  quiet (L (world_of (run_op o w))) =
  match o with
  | OpSetQuiet e => if Z.eqb e 0 then 0 else 1
  | _ => quiet (L w)
  end.
Proof.
  destruct o; try reflexivity.
  simpl run_op. now rewrite log_log_keeps_L.
Qed.

(** ** The claims *)

(** C1 (the code departs from the claim).  [log_log] never reads its format
    and arguments: two calls that differ only there behave alike, and
    log(Warn, "a.cpp", 11, "x=%d", 5) under threshold Info writes the prefix
    and the newline with no message between them. *)
Theorem C1_message_never_written :
  (forall c lv file line fmt args fmt' args' w,
      log_log c lv file line fmt args w = log_log c lv file line fmt' args' w) /\
  bytes_on Stderr
    (events_of (log_log false LOG_WARN "a.cpp" 11 "x=%d" [PInt 5]) w_scenario)
  = "12:34:56 WARN  (ts: 1.500000) a.cpp:11: " ++ NL.
Proof.
  split.
  - reflexivity.
  - vm_compute. reflexivity.
Qed.

(** C2.  A call whose level is strictly below the threshold returns at once
    and leaves the world as it was: nothing is written, no clock is queried,
    the mutex is not taken and the hook is not called. *)
Theorem C2_suppressed_call_has_no_effect c lv file line fmt args w :
  lv < level (L w) ->
  log_log c lv file line fmt args w = Done tt w /\
  events_of (log_log c lv file line fmt args) w = [].
Proof.
  intros H. split.
  - now apply log_log_suppressed.
  - apply (events_of_same _ w tt). now apply log_log_suppressed.
Qed.

Lemma C2_witness :
  LOG_DEBUG < level (L w_full) /\
  log_log false LOG_DEBUG "a.cpp" 10 "x=%d" [PInt 5] w_full = Done tt w_full /\
  events_of (log_log false LOG_DEBUG "a.cpp" 10 "x=%d" [PInt 5]) w_full = [].
Proof.
  split; [concrete_lia|].
  apply (C2_suppressed_call_has_no_effect false LOG_DEBUG "a.cpp" 10 "x=%d"
           [PInt 5] w_full).
  concrete_lia.
Defined.

(** C3.  An emitted call takes the internal mutex, then calls the installed
    hook once with 1; every sink event lies between that call and the single
    hook call with 0, after which the mutex is released.  A suppressed call
    produces no hook and no mutex event. *)
Theorem C3_hook_nested_inside_mutex c lv file line fmt args w :
  (lv < level (L w) ->
   filter is_hook (events_of (log_log c lv file line fmt args) w) = [] /\
   filter is_mutex (events_of (log_log c lv file line fmt args) w) = []) /\
  (0 <= lv <= 5 -> level (L w) <= lv ->
   exists mid,
     log_log c lv file line fmt args w =
     Done tt (add_events w
                ([EvClockNow; EvMutexLock] ++ hook_events (L w) 1 ++ mid
                   ++ hook_events (L w) 0 ++ [EvMutexUnlock])) /\
     forallb (fun e => negb (is_hook e || is_mutex e)) mid = true /\
     filter is_sink_event (events_of (log_log c lv file line fmt args) w) =
     filter is_sink_event mid).
Proof.
  split.
  - intros H.
    rewrite (events_of_same _ w tt (log_log_suppressed c file line fmt args lv w H)).
    split; reflexivity.
  - intros Hv Hl.
    exists ([EvTime; EvLocaltime]
              ++ stderr_events c (L w) lv file line (clock_ns w) (local_tm w)
              ++ file_events (L w) lv file line (clock_ns w) (local_tm w))%list.
    pose proof (log_log_emitted c file line fmt args lv w Hv Hl) as E.
    split; [|split].
    + rewrite E. unfold emitted_events. rewrite <- !app_assoc. reflexivity.
    + unfold stderr_events, file_events.
      destruct (Z.eqb (quiet (L w)) 0), (Z.eqb (fp (L w)) 0); reflexivity.
    + rewrite (events_of_add _ _ _ _ E). unfold emitted_events.
      rewrite !filter_app, !(filter_hook_events is_sink_event) by reflexivity.
      cbn [filter is_sink_event app]. now rewrite !app_nil_r.
Qed.

Lemma C3_witness :
  (LOG_DEBUG < level (L w_full) /\ 0 <= LOG_WARN <= 5 /\ level (L w_full) <= LOG_WARN) /\
  (filter is_hook
     (events_of (log_log false LOG_DEBUG "a.cpp" 10 "x=%d" [PInt 5]) w_full) = [] /\
   filter is_mutex
     (events_of (log_log false LOG_DEBUG "a.cpp" 10 "x=%d" [PInt 5]) w_full) = []) /\
  exists mid,
    log_log false LOG_WARN "a.cpp" 11 "x=%d" [PInt 5] w_full =
    Done tt (add_events w_full
               ([EvClockNow; EvMutexLock] ++ hook_events (L w_full) 1 ++ mid
                  ++ hook_events (L w_full) 0 ++ [EvMutexUnlock])) /\
    forallb (fun e => negb (is_hook e || is_mutex e)) mid = true /\
    filter is_sink_event
      (events_of (log_log false LOG_WARN "a.cpp" 11 "x=%d" [PInt 5]) w_full) =
    filter is_sink_event mid.
Proof.
  split; [concrete_lia|]. split.
  - apply (proj1 (C3_hook_nested_inside_mutex false LOG_DEBUG "a.cpp" 10 "x=%d"
                    [PInt 5] w_full)); concrete_lia.
  - apply (proj2 (C3_hook_nested_inside_mutex false LOG_WARN "a.cpp" 11 "x=%d"
                    [PInt 5] w_full)); concrete_lia.
Defined.

(** C4.  After [log_set_quiet] with a nonzero argument a call writes nothing
    to stderr, whatever the threshold and the level, and its file-sink events
    are those of the same call with quiet off. *)
Theorem C4_quiet_silences_console_only c lv file line fmt args w e :
  e <> 0 ->
  written Stderr
    (events_of (log_log c lv file line fmt args) (world_of (log_set_quiet e w))) = [] /\
  filter is_file_event
    (events_of (log_log c lv file line fmt args) (world_of (log_set_quiet e w))) =
  filter is_file_event
    (events_of (log_log c lv file line fmt args) (world_of (log_set_quiet 0 w))).
Proof.
  intros He. apply Z.eqb_neq in He. split.
  - rewrite log_log_stderr_written.
    destruct (Z.ltb _ _ || negb _); [reflexivity|].
    cbn [log_set_quiet set_L world_of L quiet]. now rewrite He.
  - rewrite !log_log_file_events. reflexivity.
Qed.

Lemma C4_witness :
  1 <> 0 /\
  (written Stderr
     (events_of (log_log false LOG_WARN "a.cpp" 11 "x=%d" [PInt 5])
        (world_of (log_set_quiet 1 w_full))) = [] /\
   filter is_file_event
     (events_of (log_log false LOG_WARN "a.cpp" 11 "x=%d" [PInt 5])
        (world_of (log_set_quiet 1 w_full))) =
   filter is_file_event
     (events_of (log_log false LOG_WARN "a.cpp" 11 "x=%d" [PInt 5])
        (world_of (log_set_quiet 0 w_full)))) /\
  filter is_file_event
    (events_of (log_log false LOG_WARN "a.cpp" 11 "x=%d" [PInt 5])
       (world_of (log_set_quiet 1 w_full))) =
  [EvWrite (File 9) "2026-11-02 12:34:56 WARN  (ts: 1.500000) a.cpp:11: ";
   EvWrite (File 9) NL; EvFlush 9].
Proof.
  split; [lia|]. split.
  - apply (C4_quiet_silences_console_only false LOG_WARN "a.cpp" 11 "x=%d"
             [PInt 5] w_full 1).
    lia.
  - vm_compute. reflexivity.
Defined.

(** C5.  An emitted call sends stderr one text and one newline unless quiet
    is set, and the configured file sink one text, one newline and a flush;
    each text ends in a space and holds a newline only where the caller's
    file name does, so each line is closed by exactly one newline. *)
Theorem C5_one_line_per_sink c lv file line fmt args w :
  0 <= lv <= 5 -> level (L w) <= lv ->
  is_done (log_log c lv file line fmt args w) = true /\
  written Stderr (events_of (log_log c lv file line fmt args) w) =
    (if Z.eqb (quiet (L w)) 0
     then [console_text c lv file line (clock_ns w) (local_tm w); NL] else []) /\
  filter is_file_event (events_of (log_log c lv file line fmt args) w) =
    (if Z.eqb (fp (L w)) 0 then []
     else [EvWrite (File (fp (L w)))
             (file_line_text lv file line (clock_ns w) (local_tm w));
           EvWrite (File (fp (L w))) NL; EvFlush (fp (L w))]) /\
  count_nl (console_text c lv file line (clock_ns w) (local_tm w)) = count_nl file /\
  count_nl (file_line_text lv file line (clock_ns w) (local_tm w)) = count_nl file /\
  last_char (console_text c lv file line (clock_ns w) (local_tm w)) = Some " "%char /\
  last_char (file_line_text lv file line (clock_ns w) (local_tm w)) = Some " "%char /\
  count_nl NL = 1%nat.
Proof.
  intros Hv Hl.
  assert (Eb : valid_levelb lv = true) by now apply valid_levelb_spec.
  assert (Et : Z.ltb lv (level (L w)) = false) by now apply Z.ltb_ge.
  repeat split.
  - now rewrite (log_log_emitted c file line fmt args lv w Hv Hl).
  - rewrite log_log_stderr_written, Eb, Et. reflexivity.
  - rewrite log_log_file_events, Eb, Et. reflexivity.
  - apply count_nl_console_text.
  - apply count_nl_file_line_text.
  - apply last_char_console_text.
  - apply last_char_file_line_text.
Qed.

Lemma C5_witness :
  (0 <= LOG_WARN <= 5 /\ level (L w_full) <= LOG_WARN) /\
  written Stderr (events_of (log_log false LOG_WARN "a.cpp" 11 "x=%d" [PInt 5]) w_full) =
    ["12:34:56 WARN  (ts: 1.500000) a.cpp:11: "; NL] /\
  filter is_file_event (events_of (log_log false LOG_WARN "a.cpp" 11 "x=%d" [PInt 5]) w_full) =
    [EvWrite (File 9) "2026-11-02 12:34:56 WARN  (ts: 1.500000) a.cpp:11: ";
     EvWrite (File 9) NL; EvFlush 9].
Proof.
  split; [concrete_lia|].
  assert (H : 0 <= LOG_WARN <= 5 /\ level (L w_full) <= LOG_WARN) by concrete_lia.
  destruct (C5_one_line_per_sink false LOG_WARN "a.cpp" 11 "x=%d" [PInt 5] w_full
              (proj1 H) (proj2 H)) as (_ & Hs & Hf & _).
  split.
  - rewrite Hs. vm_compute. reflexivity.
  - rewrite Hf. vm_compute. reflexivity.
Defined.

(** C6.  The two spellings of the divisor denote the same binary64 value,
    exactly 10^9, so the two divisions agree on every nanosecond count; an
    emitted call reads the clock once, and with both sinks on the two texts
    carry the same ts field. *)
Theorem C6_both_sinks_print_one_ts :
  (forall ns, ts_console ns = ts_file ns) /\
  SF_of_literal lit_1e9 = S754_finite false 8388608000000000 (-23) /\
  SF_of_literal lit_1000000000_0 = S754_finite false 8388608000000000 (-23) /\
  8388608000000000 = 10 ^ 9 * 2 ^ 23 /\
  (forall c lv file line fmt args w,
      0 <= lv <= 5 -> level (L w) <= lv -> quiet (L w) = 0 -> fp (L w) <> 0 ->
      filter is_clock (events_of (log_log c lv file line fmt args) w) = [EvClockNow] /\
      exists p q p' q',
        written Stderr (events_of (log_log c lv file line fmt args) w) =
          [p ++ "(ts: " ++ fmt_f6 (ts_console (clock_ns w)) ++ ") " ++ q; NL] /\
        written (File (fp (L w))) (events_of (log_log c lv file line fmt args) w) =
          [p' ++ "(ts: " ++ fmt_f6 (ts_console (clock_ns w)) ++ ") " ++ q'; NL]).
Proof.
  split; [exact ts_agree|].
  split; [vm_compute; reflexivity|].
  split; [vm_compute; reflexivity|].
  split; [reflexivity|].
  intros c lv file line fmt args w Hv Hl Hq Hf.
  rewrite (events_of_add _ _ _ _ (log_log_emitted c file line fmt args lv w Hv Hl)).
  split; [apply clock_events_emitted|].
  destruct (console_text_ts c lv file line (clock_ns w) (local_tm w)) as (p & q & E1).
  destruct (file_line_text_ts lv file line (clock_ns w) (local_tm w)) as (p' & q' & E2).
  exists p, q, p', q'.
  rewrite written_stderr_emitted, written_file_emitted, Hq, <- E1, <- E2.
  apply Z.eqb_neq in Hf. rewrite Hf. split; reflexivity.
Qed.

Lemma C6_witness :
  (0 <= LOG_WARN <= 5 /\ level (L w_full) <= LOG_WARN /\ quiet (L w_full) = 0
   /\ fp (L w_full) <> 0) /\
  filter is_clock (events_of (log_log false LOG_WARN "a.cpp" 11 "x=%d" [PInt 5]) w_full)
    = [EvClockNow] /\
  exists p q p' q',
    written Stderr (events_of (log_log false LOG_WARN "a.cpp" 11 "x=%d" [PInt 5]) w_full) =
      [p ++ "(ts: " ++ fmt_f6 (ts_console (clock_ns w_full)) ++ ") " ++ q; NL] /\
    written (File (fp (L w_full)))
      (events_of (log_log false LOG_WARN "a.cpp" 11 "x=%d" [PInt 5]) w_full) =
      [p' ++ "(ts: " ++ fmt_f6 (ts_console (clock_ns w_full)) ++ ") " ++ q'; NL].
Proof.
  split; [concrete_lia|].
  apply (proj2 (proj2 (proj2 (proj2 C6_both_sinks_print_one_ts)))
           false LOG_WARN "a.cpp" 11 "x=%d" [PInt 5] w_full); concrete_lia.
Defined.

(** C7.  The zero-initialised [L] holds the defaults (threshold Trace, quiet
    off, no file sink, no hook, no user data), and from it a call at any of
    the six levels is emitted to stderr at once. *)
Theorem C7_defaults_ready_to_emit :
  level L_init = LOG_TRACE /\ quiet L_init = 0 /\ fp L_init = 0 /\
  lock_fn L_init = 0 /\ udata L_init = 0 /\
  (forall c lv file line fmt args ns lt tr,
      0 <= lv <= 5 ->
      log_log c lv file line fmt args (mk_World L_init ns lt tr) =
      Done tt (mk_World L_init ns lt
                 (tr ++ [EvClockNow; EvMutexLock; EvTime; EvLocaltime;
                         EvWrite Stderr (console_text c lv file line ns lt);
                         EvWrite Stderr NL; EvMutexUnlock]))).
Proof.
  repeat split.
  intros c lv file line fmt args ns lt tr Hv.
  rewrite log_log_emitted by (cbv [L level L_init]; lia).
  reflexivity.
Qed.

Lemma C7_witness :
  0 <= LOG_TRACE <= 5 /\
  log_log false LOG_TRACE "b.cpp" 1 "hello" [] (mk_World L_init 1500000000 tm_sample []) =
  Done tt (mk_World L_init 1500000000 tm_sample
             [EvClockNow; EvMutexLock; EvTime; EvLocaltime;
              EvWrite Stderr "12:34:56 TRACE (ts: 1.500000) b.cpp:1: ";
              EvWrite Stderr NL; EvMutexUnlock]).
Proof.
  split; [concrete_lia|].
  assert (H : 0 <= LOG_TRACE <= 5) by concrete_lia.
  rewrite (proj2 (proj2 (proj2 (proj2 (proj2 C7_defaults_ready_to_emit))))
             false LOG_TRACE "b.cpp" 1 "hello" [] 1500000000 tm_sample [] H).
  vm_compute. reflexivity.
Defined.

(** C8.  Each setter returns normally, writes its own field of [L] and no
    other, and appends no event: no I/O, and for [log_set_fp] no close of the
    handle it replaces. *)
Theorem C8_setters_touch_one_field w :
  (forall lv, exists w',
      log_set_level lv w = Done tt w' /\ outside_unchanged w w' /\
      level (L w') = lv /\ udata (L w') = udata (L w) /\
      lock_fn (L w') = lock_fn (L w) /\ fp (L w') = fp (L w) /\
      quiet (L w') = quiet (L w)) /\
  (forall e, exists w',
      log_set_quiet e w = Done tt w' /\ outside_unchanged w w' /\
      quiet (L w') = (if Z.eqb e 0 then 0 else 1) /\ udata (L w') = udata (L w) /\
      lock_fn (L w') = lock_fn (L w) /\ fp (L w') = fp (L w) /\
      level (L w') = level (L w)) /\
  (forall f, exists w',
      log_set_fp f w = Done tt w' /\ outside_unchanged w w' /\
      fp (L w') = f /\ udata (L w') = udata (L w) /\
      lock_fn (L w') = lock_fn (L w) /\ level (L w') = level (L w) /\
      quiet (L w') = quiet (L w) /\
      events_of (log_set_fp f) w = []) /\
  (forall fn, exists w',
      log_set_lock fn w = Done tt w' /\ outside_unchanged w w' /\
      lock_fn (L w') = fn /\ udata (L w') = udata (L w) /\
      fp (L w') = fp (L w) /\ level (L w') = level (L w) /\
      quiet (L w') = quiet (L w)) /\
  (forall u, exists w',
      log_set_udata u w = Done tt w' /\ outside_unchanged w w' /\
      udata (L w') = u /\ lock_fn (L w') = lock_fn (L w) /\
      fp (L w') = fp (L w) /\ level (L w') = level (L w) /\
      quiet (L w') = quiet (L w)).
Proof.
  unfold outside_unchanged.
  repeat split; intros; eexists; repeat split.
  unfold events_of. simpl. rewrite <- (app_nil_r (trace w)) at 2.
  apply skipn_length_app.
Qed.

(** C9 as stated fails: with quiet set and no file sink, a call at level 6
    passes the threshold, indexes no table and returns normally. *)
Lemma C9_counterexample :
  6 <= 6 /\ level (L w_mute) <= 6 /\
  log_log false 6 "a.cpp" 11 "x=%d" [PInt 5] w_mute =
  Done tt (add_events w_mute [EvClockNow; EvMutexLock; EvTime; EvLocaltime;
                              EvMutexUnlock]).
Proof. split; [lia|]. split; [concrete_lia|]. reflexivity. Qed.

(** C9, amended.  Both tables are indexed in bounds exactly for the levels
    0..5; a call at such a level never faults; a call at a level of 6 or more
    that passes the threshold faults exactly when a sink is on (quiet is 0 or
    a file sink is set), and otherwise returns without indexing. *)
Theorem C9_index_in_bounds_iff_enumerated :
  (forall lv w, is_done (index level_names lv w) = true <-> 0 <= lv <= 5) /\
  (forall lv w, is_done (index level_colors lv w) = true <-> 0 <= lv <= 5) /\
  (forall c lv file line fmt args w,
      0 <= lv <= 5 -> is_done (log_log c lv file line fmt args w) = true) /\
  (forall c lv file line fmt args w,
      6 <= lv -> level (L w) <= lv ->
      (is_done (log_log c lv file line fmt args w) = false <->
       quiet (L w) = 0 \/ fp (L w) <> 0)).
Proof.
  assert (Hidx : forall tbl lv w, List.length tbl = 6%nat ->
             (forall w0, 0 <= lv <= 5 -> exists s, index tbl lv w0 = Done s w0) ->
             (is_done (index tbl lv w) = true <-> 0 <= lv <= 5)).
  { intros tbl lv w Hlen Hok. split.
    - intros H. destruct (Z.le_gt_cases 0 lv), (Z.le_gt_cases lv 5); try lia;
        rewrite index_invalid in H by (auto; lia); discriminate H.
    - intros H. destruct (Hok w H) as [s E]. now rewrite E. }
  split; [|split; [|split]].
  - intros lv w. apply Hidx; [reflexivity|].
    intros w0 H. eexists. now apply index_names_valid.
  - intros lv w. apply Hidx; [reflexivity|].
    intros w0 H. eexists. now apply index_colors_valid.
  - intros c lv file line fmt args w Hv.
    destruct (Z.lt_ge_cases lv (level (L w))) as [Hs|Hs].
    + now rewrite log_log_suppressed.
    + now rewrite log_log_emitted.
  - intros c lv file line fmt args w H6 Hl.
    rewrite log_log_invalid by lia. unfold sink_active.
    destruct (Z.eqb_spec (quiet (L w)) 0) as [Eq|Eq];
      destruct (Z.eqb_spec (fp (L w)) 0) as [Ef|Ef]; simpl; split; intros H;
      try reflexivity; try discriminate; try (now left); try (now right).
    destruct H as [H|H]; contradiction.
Qed.

Lemma C9_witness :
  (0 <= LOG_FATAL <= 5 /\ 6 <= 6 /\ level (L w_scenario) <= 6) /\
  is_done (log_log false LOG_FATAL "a.cpp" 11 "x=%d" [PInt 5] w_scenario) = true /\
  (is_done (log_log false 6 "a.cpp" 11 "x=%d" [PInt 5] w_scenario) = false <->
   quiet (L w_scenario) = 0 \/ fp (L w_scenario) <> 0).
Proof.
  split; [concrete_lia|]. split.
  - apply (proj1 (proj2 (proj2 C9_index_in_bounds_iff_enumerated))). concrete_lia.
  - apply (proj2 (proj2 (proj2 C9_index_in_bounds_iff_enumerated))); concrete_lia.
Defined.

(** C10.  [log_set_quiet] stores 1 for a nonzero argument and 0 for zero; no
    other operation changes the field; so after any sequence of operations
    from the zero-initialised state the field is 0 or 1. *)
Theorem C10_quiet_stays_boolean :
  (forall e w, quiet (L (world_of (log_set_quiet e w))) = 1 <-> e <> 0) /\
  (forall e w, quiet (L (world_of (log_set_quiet e w))) = 0 <-> e = 0) /\
  (forall o w, (forall e, o <> OpSetQuiet e) ->
               quiet (L (world_of (run_op o w))) = quiet (L w)) /\
  (forall os w, L w = L_init ->
                quiet (L (world_of (run_ops os w))) = 0 \/
                quiet (L (world_of (run_ops os w))) = 1).
Proof.
  split; [|split; [|split]].
  - intros e w. simpl. destruct (Z.eqb_spec e 0); split; intros; try lia; congruence.
  - intros e w. simpl. destruct (Z.eqb_spec e 0); split; intros; try lia; congruence.
  - intros o w H. rewrite run_op_quiet. destruct o; try reflexivity.
    now destruct (H enable).
  - intros os w Hw.
    assert (Hinv : quiet (L w) = 0 \/ quiet (L w) = 1) by (rewrite Hw; now left).
    clear Hw. revert w Hinv.
    induction os as [|o os IH]; intros w Hinv; [exact Hinv|].
    simpl run_ops. rewrite world_of_bind.
    pose proof (run_op_quiet o w) as Hq.
    destruct (run_op o w) as [[] w'|w']; simpl in Hq.
    + apply IH. rewrite Hq. destruct o; auto. destruct (Z.eqb enable 0); auto.
    + rewrite Hq. destruct o; auto. destruct (Z.eqb enable 0); auto.
Qed.

Lemma C10_witness :
  (5 <> 0 /\ L w_scenario = mk_Logger 0 0 0 LOG_INFO 0) /\
  quiet (L (world_of (log_set_quiet 5 w_scenario))) = 1 /\
  quiet (L (world_of (run_op (OpSetFp 9) w_scenario))) = quiet (L w_scenario) /\
  (quiet (L (world_of (run_ops [OpSetLevel LOG_INFO; OpSetQuiet 5;
                                OpLog false LOG_WARN "a.cpp" 11 "x=%d" [PInt 5]]
                         (mk_World L_init 0 tm_sample [])))) = 0 \/
   quiet (L (world_of (run_ops [OpSetLevel LOG_INFO; OpSetQuiet 5;
                                OpLog false LOG_WARN "a.cpp" 11 "x=%d" [PInt 5]]
                         (mk_World L_init 0 tm_sample [])))) = 1).
Proof.
  split; [split; [lia | reflexivity]|]. split; [|split].
  - apply (proj1 C10_quiet_stays_boolean). lia.
  - apply (proj1 (proj2 (proj2 C10_quiet_stays_boolean))). intros e; discriminate.
  - apply (proj2 (proj2 (proj2 C10_quiet_stays_boolean))). reflexivity.
Defined.


(** ** One call in closed form *)

Lemma events_of_world {A} (m : M A) w evs :
  world_of (m w) = add_events w evs -> events_of m w = evs.
Proof.
  intros H. unfold events_of. rewrite H. simpl. apply skipn_length_app.
Qed.

(** The world a call of [log_log] ends in, and whether it returns. *)
Lemma log_log_world c lv file line fmt args w :
  world_of (log_log c lv file line fmt args w) =
  add_events w (call_events c (L w) lv file line (clock_ns w) (local_tm w)) /\
  is_done (log_log c lv file line fmt args w) =
  Z.ltb lv (level (L w)) || valid_levelb lv || negb (sink_active (L w)).
Proof.
  unfold call_events.
  destruct (Z.ltb_spec lv (level (L w))) as [Hs|Hs].
  - rewrite log_log_suppressed by assumption. simpl. now rewrite add_events_nil.
  - destruct (valid_levelb lv) eqn:Ev.
    + apply valid_levelb_spec in Ev. rewrite log_log_emitted by assumption.
      split; reflexivity.
    + assert (Hn : ~ (0 <= lv <= 5)).
      { intros H. apply valid_levelb_spec in H. congruence. }
      rewrite log_log_invalid by assumption.
      destruct (sink_active (L w)); split; reflexivity.
Qed.

Lemma log_log_events c lv file line fmt args w :
  events_of (log_log c lv file line fmt args) w =
  call_events c (L w) lv file line (clock_ns w) (local_tm w).
Proof. apply events_of_world. apply log_log_world. Qed.

Lemma entry_events_not_nil l : entry_events l <> [].
Proof. unfold entry_events. discriminate. Qed.

Lemma call_events_nil_iff c l lv file line ns lt :
  call_events c l lv file line ns lt = [] <-> lv < level l.
Proof.
  unfold call_events. destruct (Z.ltb_spec lv (level l)) as [Hs|Hs].
  - tauto.
  - split; [|lia]. intros H. exfalso.
    destruct (valid_levelb lv); [discriminate H|].
    destruct (sink_active l); discriminate H.
Qed.

(** ** Every operation extends the trace *)

Lemma run_op_world o w :
  exists l ns lt,
    world_of (run_op o w) = mk_World l ns lt (trace w ++ events_of (run_op o) w).
Proof.
  destruct o; try (simpl; unfold events_of; simpl; rewrite skipn_all, app_nil_r;
                   do 3 eexists; reflexivity).
  simpl run_op. rewrite log_log_events.
  destruct (log_log_world use_color lv file line fmt args w) as [E _].
  rewrite E. do 3 eexists. reflexivity.
Qed.

Lemma run_op_trace o w :
  trace (world_of (run_op o w)) = (trace w ++ events_of (run_op o) w)%list.
Proof. destruct (run_op_world o w) as (l & ns & lt & E). now rewrite E. Qed.

Lemma run_op_events o w :
  events_of (run_op o) w =
  match o with
  | OpLog c lv file line fmt args =>
      call_events c (L w) lv file line (clock_ns w) (local_tm w)
  | _ => []
  end.
Proof.
  destruct o; try (unfold events_of; simpl; apply skipn_all).
  apply log_log_events.
Qed.

Lemma run_op_done o w : safe_op o = true -> is_done (run_op o w) = true.
Proof.
  destruct o; try reflexivity. simpl. intros H.
  destruct (log_log_world use_color lv file line fmt args w) as [_ E].
  rewrite E, H. now rewrite orb_true_r.
Qed.

(** A property of worlds kept by every operation is kept by a sequence. *)
Lemma run_ops_invariant (P : World -> Prop) :
  (forall o w, P w -> P (world_of (run_op o w))) ->
  forall os w, P w -> P (world_of (run_ops os w)).
Proof.
  intros Hstep os. induction os as [|o os IH]; intros w Hw; [exact Hw|].
  simpl run_ops. rewrite world_of_bind.
  pose proof (Hstep o w Hw) as H1.
  destruct (run_op o w) as [[] w'|w']; simpl in H1; auto.
Qed.

(** The same for sequences of safe operations, which also run to their end. *)
Lemma run_ops_safe_invariant (P : World -> Prop) :
  (forall o w, safe_op o = true -> P w -> P (world_of (run_op o w))) ->
  forall os w, forallb safe_op os = true -> P w ->
               is_done (run_ops os w) = true /\ P (world_of (run_ops os w)).
Proof.
  intros Hstep os. induction os as [|o os IH]; intros w Hs Hw.
  - split; [reflexivity | exact Hw].
  - simpl in Hs. apply andb_true_iff in Hs. destruct Hs as [Ho Hos].
    pose proof (Hstep o w Ho Hw) as H1. pose proof (run_op_done o w Ho) as H2.
    simpl run_ops. unfold bind.
    destruct (run_op o w) as [[] w'|w']; simpl in H1, H2; [|discriminate H2].
    now apply IH.
Qed.

(** ** Pending bytes and the locking discipline along a trace *)

Lemma pending_app f a b acc : pending f (a ++ b) acc = pending f b (pending f a acc).
Proof.
  revert acc. induction a as [|e a IH]; intros acc; [reflexivity|].
  destruct e; simpl; auto. destruct s; simpl; auto.
Qed.

Lemma pending_call_events f c l lv file line ns lt :
  pending f (call_events c l lv file line ns lt) EmptyString = EmptyString.
Proof.
  unfold call_events, emitted_events, entry_events, hook_events, stderr_events,
    file_events.
  destruct (Z.ltb lv (level l)); [reflexivity|].
  destruct (valid_levelb lv), (sink_active l), (Z.eqb (lock_fn l) 0),
    (Z.eqb (quiet l) 0), (Z.eqb (fp l) 0); simpl; try reflexivity;
    destruct (Z.eqb f (fp l)); reflexivity.
Qed.

Lemma discipline_app a b st :
  discipline (a ++ b) st =
  match discipline a st with
  | Some st' => discipline b st'
  | None => None
  end.
Proof.
  revert st. induction a as [|e a IH]; intros st; [reflexivity|].
  destruct e; simpl; auto.
  - destruct (existsb is_HMutex st); auto.
  - destruct st as [|[|] st]; auto.
  - destruct (Z.eqb arg 0).
    + destruct st as [|[|fn' ud'] st]; auto.
      destruct (Z.eqb fn fn' && Z.eqb ud ud'); auto.
    + destruct (existsb is_HMutex st); auto.
  - destruct (existsb is_HMutex st); auto.
  - destruct (existsb is_HMutex st); auto.
  - destruct (existsb is_HMutex st); auto.
Qed.

Lemma discipline_call_events c l lv file line ns lt :
  valid_levelb lv = true ->
  discipline (call_events c l lv file line ns lt) [] = Some [].
Proof.
  intros Hv.
  unfold call_events, emitted_events, hook_events, stderr_events, file_events.
  rewrite Hv. destruct (Z.ltb lv (level l)); [reflexivity|].
  destruct (Z.eqb (lock_fn l) 0), (Z.eqb (quiet l) 0), (Z.eqb (fp l) 0);
    simpl; rewrite ?Z.eqb_refl; reflexivity.
Qed.


(** ** Sequences: the trace of a run *)



Lemma expand_eq m c file line fmt args :
  expand m c file line fmt args = log_log c (macro_level m) file line fmt args.
Proof. now destruct m. Qed.

Lemma macro_level_valid m : valid_levelb (macro_level m) = true.
Proof. now destruct m. Qed.

Lemma length_append a b :
  String.length (a ++ b) = (String.length a + String.length b)%nat.
Proof. induction a as [|x a IH]; simpl; [reflexivity | now rewrite IH]. Qed.

(** Two decimal digits for 0..99, four for 1000..9999: checked on each. *)
Lemma length_fmt_0d_2 z : 0 <= z <= 99 -> String.length (fmt_0d 2 z) = 2%nat.
Proof.
  intros H.
  assert (A : forallb (fun n => Nat.eqb (String.length (fmt_0d 2 (Z.of_nat n))) 2)
                (seq 0 100) = true) by (vm_compute; reflexivity).
  rewrite forallb_forall in A. specialize (A (Z.to_nat z)).
  rewrite Z2Nat.id in A by lia. apply Nat.eqb_eq, A, in_seq. lia.
Qed.

Lemma length_fmt_d_4 z : 1000 <= z <= 9999 -> String.length (fmt_d z) = 4%nat.
Proof.
  intros H.
  assert (A : forallb (fun n => Nat.eqb (String.length (fmt_d (1000 + Z.of_nat n))) 4)
                (seq 0 (Z.to_nat 9000)) = true) by (vm_compute; reflexivity).
  rewrite forallb_forall in A. specialize (A (Z.to_nat (z - 1000))).
  rewrite Z2Nat.id in A by lia. replace (1000 + (z - 1000)) with z in A by lia.
  apply Nat.eqb_eq, A, in_seq. lia.
Qed.

Lemma length_hms lt : wf_tm lt -> String.length (hms lt) = 8%nat.
Proof.
  intros (Hs & Hm & Hh & _). unfold hms.
  rewrite !length_append, !length_fmt_0d_2 by lia. reflexivity.
Qed.

Lemma length_ymd_hms lt : wf_tm lt -> String.length (ymd_hms lt) = 19%nat.
Proof.
  intros H. pose proof (length_hms lt H) as E.
  destruct H as (Hs & Hm & Hh & Hd & Hmo & Hy). unfold ymd_hms.
  rewrite !length_append, E, !length_fmt_0d_2, length_fmt_d_4 by lia. reflexivity.
Qed.

Lemma hook_filter_emitted c l lv file line ns lt :
  filter is_hook (emitted_events c l lv file line ns lt) =
  (hook_events l 1 ++ hook_events l 0)%list.
Proof.
  unfold emitted_events, hook_events, stderr_events, file_events.
  destruct (Z.eqb (lock_fn l) 0), (Z.eqb (quiet l) 0), (Z.eqb (fp l) 0); reflexivity.
Qed.

Lemma call_events_emitted c l lv file line ns lt :
  0 <= lv <= 5 -> level l <= lv ->
  call_events c l lv file line ns lt = emitted_events c l lv file line ns lt.
Proof.
  intros Hv Hl. unfold call_events.
  apply valid_levelb_spec in Hv. apply Z.ltb_ge in Hl. now rewrite Hl, Hv.
Qed.



(** ** Further properties of the code *)

(** X1.  Each of the six entry points calls [log_log] at a level of the
    enumeration: it never faults, its level field is its own name padded to
    five characters, and with the console on and the threshold not above its
    level it writes the console text of that level and a newline. *)
Theorem X1_entry_points c file line fmt args w m :
  is_done (expand m c file line fmt args w) = true /\
  fmt_s_left 5 (level_name (macro_level m)) =
    match m with
    | M_trace => "TRACE" | M_debug => "DEBUG" | M_info => "INFO "
    | M_warn => "WARN " | M_error => "ERROR" | M_fatal => "FATAL"
    end /\
  (level (L w) <= macro_level m -> quiet (L w) = 0 ->
   written Stderr (events_of (expand m c file line fmt args) w) =
   [console_text c (macro_level m) file line (clock_ns w) (local_tm w); NL]).
Proof.
  rewrite expand_eq. split; [|split].
  - destruct (log_log_world c (macro_level m) file line fmt args w) as [_ E].
    rewrite E, macro_level_valid. now rewrite orb_true_r.
  - now destruct m.
  - intros Hl Hq. rewrite log_log_stderr_written, macro_level_valid, Hq.
    apply Z.ltb_ge in Hl. now rewrite Hl.
Qed.

Lemma X1_witness :
  (level (L w_scenario) <= macro_level M_warn /\ quiet (L w_scenario) = 0) /\
  is_done (log_warn false "a.cpp" 11 "x=%d" [PInt 5] w_scenario) = true /\
  written Stderr (events_of (log_warn false "a.cpp" 11 "x=%d" [PInt 5]) w_scenario) =
  ["12:34:56 WARN  (ts: 1.500000) a.cpp:11: "; NL].
Proof.
  split; [split; [cbv [macro_level]; concrete_lia | reflexivity]|].
  destruct (X1_entry_points false "a.cpp" 11 "x=%d" [PInt 5] w_scenario M_warn)
    as (Hd & _ & Hw).
  split; [exact Hd|].
  change (log_warn false "a.cpp" 11 "x=%d" [PInt 5])
    with (expand M_warn false "a.cpp" 11 "x=%d" [PInt 5]).
  rewrite Hw by (try reflexivity; cbv [macro_level]; concrete_lia).
  vm_compute. reflexivity.
Defined.

(** X2.  A call leaves the world untouched exactly when its level is below
    the threshold; any other call, whatever its level and whatever the
    sinks, starts by reading the clock and taking the mutex. *)
Theorem X2_effect_iff_not_below_threshold c lv file line fmt args w :
  (events_of (log_log c lv file line fmt args) w = [] <-> lv < level (L w)) /\
  (level (L w) <= lv ->
   exists rest, events_of (log_log c lv file line fmt args) w =
                EvClockNow :: EvMutexLock :: rest).
Proof.
  rewrite log_log_events. split; [apply call_events_nil_iff|].
  intros Hl. unfold call_events. apply Z.ltb_ge in Hl. rewrite Hl.
  destruct (valid_levelb lv); [|destruct (sink_active (L w))];
    unfold emitted_events, entry_events; simpl; eauto.
Qed.

Lemma X2_witness :
  level (L w_mute) <= 7 /\
  exists rest, events_of (log_log false 7 "a.cpp" 11 "x=%d" [PInt 5]) w_mute =
               EvClockNow :: EvMutexLock :: rest.
Proof.
  split; [concrete_lia|].
  apply (proj2 (X2_effect_iff_not_below_threshold false 7 "a.cpp" 11 "x=%d"
                  [PInt 5] w_mute)).
  concrete_lia.
Defined.

(** X3.  [log_set_level] stores any integer unchecked.  After it an entry
    point is silent exactly when its level is below the stored value: a
    value above [LOG_FATAL] silences all six, a value of zero or less lets
    all six through. *)
Theorem X3_threshold_is_unchecked c file line fmt args w t :
  (forall m, events_of (expand m c file line fmt args)
               (world_of (log_set_level t w)) = [] <-> macro_level m < t) /\
  (LOG_FATAL < t ->
   forall m, expand m c file line fmt args (world_of (log_set_level t w)) =
             Done tt (world_of (log_set_level t w))) /\
  (t <= 0 ->
   forall m, events_of (expand m c file line fmt args)
               (world_of (log_set_level t w)) <> []).
Proof.
  split; [|split].
  - intros m. rewrite expand_eq, log_log_events, call_events_nil_iff. reflexivity.
  - intros Ht m. rewrite expand_eq. apply log_log_suppressed. simpl.
    destruct m; cbv [macro_level LOG_TRACE LOG_DEBUG LOG_INFO LOG_WARN LOG_ERROR
                       LOG_FATAL] in *; lia.
  - intros Ht m. rewrite expand_eq, log_log_events, call_events_nil_iff. simpl.
    destruct m; cbv [macro_level LOG_TRACE LOG_DEBUG LOG_INFO LOG_WARN LOG_ERROR
                       LOG_FATAL]; lia.
Qed.

Lemma X3_witness :
  (LOG_FATAL < 6 /\ -3 <= 0) /\
  log_fatal false "a.cpp" 11 "x=%d" [PInt 5] (world_of (log_set_level 6 w_full)) =
  Done tt (world_of (log_set_level 6 w_full)) /\
  events_of (log_trace false "a.cpp" 11 "x=%d" [PInt 5])
    (world_of (log_set_level (-3) w_full)) <> [].
Proof.
  split; [concrete_lia|]. split.
  - apply (proj1 (proj2 (X3_threshold_is_unchecked false "a.cpp" 11 "x=%d"
                           [PInt 5] w_full 6)) ltac:(concrete_lia) M_fatal).
  - apply (proj2 (proj2 (X3_threshold_is_unchecked false "a.cpp" 11 "x=%d"
                           [PInt 5] w_full (-3))) ltac:(lia) M_trace).
Defined.

(** X4.  The hook an emitted call invokes is the one last installed, with
    the user data last stored, in whichever order the two setters ran: once
    with 1 and once with 0.  After [log_set_lock] with the null pointer no
    hook is called. *)
Theorem X4_hook_follows_the_setters c lv file line fmt args w fn u :
  0 <= lv <= 5 -> level (L w) <= lv ->
  (fn <> 0 ->
   filter is_hook (events_of (log_log c lv file line fmt args)
                     (world_of ((log_set_lock fn ;;; log_set_udata u) w))) =
   [EvHook fn u 1; EvHook fn u 0] /\
   filter is_hook (events_of (log_log c lv file line fmt args)
                     (world_of ((log_set_udata u ;;; log_set_lock fn) w))) =
   [EvHook fn u 1; EvHook fn u 0]) /\
  filter is_hook (events_of (log_log c lv file line fmt args)
                    (world_of (log_set_lock 0 w))) = [].
Proof.
  intros Hv Hl. split.
  - intros Hfn. apply Z.eqb_neq in Hfn.
    split; rewrite log_log_events, call_events_emitted by assumption;
      rewrite hook_filter_emitted; unfold hook_events; simpl; now rewrite Hfn.
  - rewrite log_log_events, call_events_emitted by assumption.
    rewrite hook_filter_emitted. reflexivity.
Qed.

Lemma X4_witness :
  (0 <= LOG_WARN <= 5 /\ level (L w_scenario) <= LOG_WARN /\ 8 <> 0) /\
  filter is_hook (events_of (log_log false LOG_WARN "a.cpp" 11 "x=%d" [PInt 5])
                    (world_of ((log_set_lock 8 ;;; log_set_udata 7) w_scenario))) =
  [EvHook 8 7 1; EvHook 8 7 0] /\
  filter is_hook (events_of (log_log false LOG_WARN "a.cpp" 11 "x=%d" [PInt 5])
                    (world_of (log_set_lock 0 w_full))) = [].
Proof.
  split; [concrete_lia|]. split.
  - apply (proj1 (X4_hook_follows_the_setters false LOG_WARN "a.cpp" 11 "x=%d"
                    [PInt 5] w_scenario 8 7 ltac:(concrete_lia) ltac:(concrete_lia))
             ltac:(lia)).
  - apply (proj2 (X4_hook_follows_the_setters false LOG_WARN "a.cpp" 11 "x=%d"
                    [PInt 5] w_full 8 7 ltac:(concrete_lia) ltac:(concrete_lia))).
Defined.

(** X5.  After [log_set_fp] an emitted call writes its line to the new
    stream and flushes it, and produces no other file event: the stream
    that was installed before receives nothing and is neither flushed nor
    closed.  After [log_set_fp] with the null pointer there is no file
    event at all. *)
Theorem X5_file_sink_is_replaced c lv file line fmt args w g :
  0 <= lv <= 5 -> level (L w) <= lv ->
  (g <> 0 ->
   filter is_file_event (events_of (log_log c lv file line fmt args)
                           (world_of (log_set_fp g w))) =
   [EvWrite (File g) (file_line_text lv file line (clock_ns w) (local_tm w));
    EvWrite (File g) NL; EvFlush g]) /\
  filter is_file_event (events_of (log_log c lv file line fmt args)
                          (world_of (log_set_fp 0 w))) = [].
Proof.
  intros Hv Hl.
  assert (Eb : valid_levelb lv = true) by now apply valid_levelb_spec.
  assert (Et : Z.ltb lv (level (L w)) = false) by now apply Z.ltb_ge.
  split.
  - intros Hg. apply Z.eqb_neq in Hg. rewrite log_log_file_events. simpl.
    rewrite Et, Eb. unfold file_events. simpl. now rewrite Hg.
  - rewrite log_log_file_events. simpl. now rewrite Et, Eb.
Qed.

Lemma X5_witness :
  (0 <= LOG_WARN <= 5 /\ level (L w_full) <= LOG_WARN /\ 4 <> 0) /\
  filter is_file_event (events_of (log_log false LOG_WARN "a.cpp" 11 "x=%d" [PInt 5])
                          (world_of (log_set_fp 4 w_full))) =
  [EvWrite (File 4) "2026-11-02 12:34:56 WARN  (ts: 1.500000) a.cpp:11: ";
   EvWrite (File 4) NL; EvFlush 4] /\
  filter is_file_event (events_of (log_log false LOG_WARN "a.cpp" 11 "x=%d" [PInt 5])
                          (world_of (log_set_fp 0 w_full))) = [].
Proof.
  split; [concrete_lia|].
  destruct (X5_file_sink_is_replaced false LOG_WARN "a.cpp" 11 "x=%d" [PInt 5]
              w_full 4 ltac:(concrete_lia) ltac:(concrete_lia)) as [H1 H2].
  split; [|exact H2].
  rewrite H1 by lia. vm_compute. reflexivity.
Defined.

(** X6.  No operation returns, or faults, with bytes written to a file
    stream and not yet flushed: if no stream has pending bytes before a
    sequence of operations, none has after it. *)
Theorem X6_nothing_left_unflushed os w f :
  unflushed f (trace w) = EmptyString ->
  unflushed f (trace (world_of (run_ops os w))) = EmptyString.
Proof.
  revert w. apply (run_ops_invariant (fun w => unflushed f (trace w) = EmptyString)).
  intros o w H. rewrite run_op_trace. unfold unflushed in *.
  rewrite pending_app, H, run_op_events.
  destruct o; try reflexivity. apply pending_call_events.
Qed.

Lemma X6_witness :
  unflushed 9 (trace w_full) = EmptyString /\
  unflushed 9 (trace (world_of
     (run_ops [OpLog false LOG_WARN "a.cpp" 11 "x=%d" [PInt 5];
               OpSetFp 4; OpLog true 6 "b.cpp" 2 "y" []] w_full))) = EmptyString.
Proof.
  split; [reflexivity|].
  apply (X6_nothing_left_unflushed
           [OpLog false LOG_WARN "a.cpp" 11 "x=%d" [PInt 5];
            OpSetFp 4; OpLog true 6 "b.cpp" 2 "y" []] w_full 9).
  reflexivity.
Defined.


(** X7.  A program made of the setters and of calls at levels of the
    enumeration keeps the locking discipline: the mutex is never taken
    twice, the hook takes the caller's lock under the mutex and gives it back
    with the same user data before the mutex is released, every write and
    flush happens under the mutex, and nothing is held when the program
    ends. *)
Theorem X7_locking_discipline os w :
  forallb safe_op os = true ->
  discipline (trace w) [] = Some [] ->
  discipline (trace (world_of (run_ops os w))) [] = Some [].
Proof.
  intros Hs Hw.
  apply (run_ops_safe_invariant (fun w => discipline (trace w) [] = Some []));
    try assumption.
  intros o w0 Ho H. rewrite run_op_trace, discipline_app, H, run_op_events.
  destruct o; try reflexivity. now apply discipline_call_events.
Qed.

Lemma X7_witness :
  (forallb safe_op [OpSetLock 8; OpSetUdata 7; OpSetFp 9;
                    OpLog false LOG_WARN "a.cpp" 11 "x=%d" [PInt 5];
                    OpSetQuiet 1; OpLog true LOG_FATAL "b.cpp" 2 "y" []] = true /\
   discipline (trace w_scenario) [] = Some []) /\
  discipline (trace (world_of
     (run_ops [OpSetLock 8; OpSetUdata 7; OpSetFp 9;
               OpLog false LOG_WARN "a.cpp" 11 "x=%d" [PInt 5];
               OpSetQuiet 1; OpLog true LOG_FATAL "b.cpp" 2 "y" []] w_scenario)))
    [] = Some [].
Proof.
  split; [split; reflexivity|].
  apply (X7_locking_discipline
           [OpSetLock 8; OpSetUdata 7; OpSetFp 9;
            OpLog false LOG_WARN "a.cpp" 11 "x=%d" [PInt 5];
            OpSetQuiet 1; OpLog true LOG_FATAL "b.cpp" 2 "y" []] w_scenario);
    reflexivity.
Defined.

(** X8.  Every call through an entry point is at a level of the
    enumeration, and a program made of the setters and of such calls runs to
    its end: the table accesses stay in bounds in any configuration. *)
Theorem X8_programs_of_entry_points_return :
  (forall m c file line fmt args w,
      safe_op (OpLog c (macro_level m) file line fmt args) = true /\
      run_op (OpLog c (macro_level m) file line fmt args) w =
      expand m c file line fmt args w) /\
  (forall os w, forallb safe_op os = true -> is_done (run_ops os w) = true).
Proof.
  split.
  - intros m c file line fmt args w. split; [apply macro_level_valid|].
    simpl. now rewrite expand_eq.
  - intros os w Hs.
    apply (run_ops_safe_invariant (fun _ => True)); auto.
Qed.

Lemma X8_witness :
  forallb safe_op [OpSetLevel 9; OpSetFp 9; OpSetLevel (-4);
                   OpLog true LOG_TRACE "a.cpp" 1 "" [];
                   OpLog false LOG_FATAL "a.cpp" 2 "" []] = true /\
  is_done (run_ops [OpSetLevel 9; OpSetFp 9; OpSetLevel (-4);
                    OpLog true LOG_TRACE "a.cpp" 1 "" [];
                    OpLog false LOG_FATAL "a.cpp" 2 "" []] w_scenario) = true.
Proof.
  split; [reflexivity|].
  apply (proj2 X8_programs_of_entry_points_return). reflexivity.
Defined.



(** X10.  The colour switch changes the console text and nothing else: the
    two builds agree on whether a call returns and on every event that is
    not a write to stderr, so the file sink never receives a colour code the
    caller did not pass. *)
Theorem X10_colour_touches_stderr_only lv file line fmt args w :
  is_done (log_log true lv file line fmt args w) =
  is_done (log_log false lv file line fmt args w) /\
  filter (fun e => negb (is_stderr_write e))
    (events_of (log_log true lv file line fmt args) w) =
  filter (fun e => negb (is_stderr_write e))
    (events_of (log_log false lv file line fmt args) w).
Proof.
  split.
  - destruct (log_log_world true lv file line fmt args w) as [_ E1].
    destruct (log_log_world false lv file line fmt args w) as [_ E2].
    now rewrite E1, E2.
  - rewrite !log_log_events.
    unfold call_events, emitted_events, stderr_events, file_events.
    destruct (Z.ltb lv (level (L w))), (valid_levelb lv), (sink_active (L w)),
      (Z.eqb (quiet (L w)) 0), (Z.eqb (fp (L w)) 0);
      rewrite ?filter_app; reflexivity.
Qed.

(** X11.  For a broken-down time in range the 16-byte and the 32-byte
    buffer hold the 8 and the 19 characters of the two patterns, and the file
    text is the date followed by the uncoloured console text. *)
Theorem X11_buffers_hold_the_time lt :
  wf_tm lt ->
  String.length (hms lt) = 8%nat /\ strftime_buf 16 (hms lt) = hms lt /\
  String.length (ymd_hms lt) = 19%nat /\ strftime_buf 32 (ymd_hms lt) = ymd_hms lt /\
  (forall lv file line ns,
      file_line_text lv file line ns lt =
      ymd_prefix lt ++ console_text false lv file line ns lt).
Proof.
  intros H. pose proof (length_hms lt H) as E8.
  pose proof (length_ymd_hms lt H) as E19.
  assert (B16 : strftime_buf 16 (hms lt) = hms lt).
  { unfold strftime_buf. now rewrite E8. }
  assert (B32 : strftime_buf 32 (ymd_hms lt) = ymd_hms lt).
  { unfold strftime_buf. now rewrite E19. }
  repeat split; try assumption.
  intros lv file line ns.
  unfold file_line_text, console_text, file_text, console_plain, fmt_s.
  rewrite B16, B32, <- ts_agree. unfold ymd_hms, ymd_prefix.
  rewrite !append_assoc. reflexivity.
Qed.

Lemma X11_witness :
  wf_tm tm_sample /\
  strftime_buf 16 (hms tm_sample) = "12:34:56" /\
  strftime_buf 32 (ymd_hms tm_sample) = "2026-11-02 12:34:56" /\
  file_line_text LOG_WARN "a.cpp" 11 1500000000 tm_sample =
  "2026-11-02 " ++ console_text false LOG_WARN "a.cpp" 11 1500000000 tm_sample.
Proof.
  assert (W : wf_tm tm_sample) by (unfold wf_tm, tm_sample; simpl; lia).
  split; [exact W|].
  destruct (X11_buffers_hold_the_time tm_sample W) as (_ & B16 & _ & B32 & F).
  split; [rewrite B16; reflexivity|].
  split; [rewrite B32; reflexivity|].
  rewrite F. reflexivity.
Defined.

(** X12.  [log_log] reads [L] and the clocks and writes neither, whether it
    is suppressed, emits or faults; so what a call appends to the trace is
    the same after any other call as before it. *)
Theorem X12_log_log_keeps_the_configuration c lv file line fmt args w :
  L (world_of (log_log c lv file line fmt args w)) = L w /\
  clock_ns (world_of (log_log c lv file line fmt args w)) = clock_ns w /\
  local_tm (world_of (log_log c lv file line fmt args w)) = local_tm w /\
  (forall c' lv' file' line' fmt' args',
      events_of (log_log c' lv' file' line' fmt' args')
        (world_of (log_log c lv file line fmt args w)) =
      events_of (log_log c' lv' file' line' fmt' args') w).
Proof.
  destruct (log_log_world c lv file line fmt args w) as [E _].
  repeat split; try (rewrite E; reflexivity).
  intros. rewrite !log_log_events, E. reflexivity.
Qed.

(** X13.  A negative level is below every threshold of zero or more, the
    default among them, and is dropped without effect; under a threshold
    at or below it, it passes and indexes the tables below their start as
    soon as a sink is on. *)
Theorem X13_negative_level c lv file line fmt args w :
  lv < 0 ->
  (0 <= level (L w) -> log_log c lv file line fmt args w = Done tt w) /\
  (level (L w) <= lv ->
   (is_done (log_log c lv file line fmt args w) = false <->
    quiet (L w) = 0 \/ fp (L w) <> 0)).
Proof.
  intros Hn. split.
  - intros H. apply log_log_suppressed. lia.
  - intros Hl. rewrite log_log_invalid by lia. unfold sink_active.
    destruct (Z.eqb_spec (quiet (L w)) 0) as [Eq|Eq];
      destruct (Z.eqb_spec (fp (L w)) 0) as [Ef|Ef]; simpl; split; intros H;
      try reflexivity; try discriminate; try (now left); try (now right).
    destruct H as [H|H]; contradiction.
Qed.

Lemma X13_witness :
  (-1 < 0 /\ 0 <= level (L w_scenario) /\
   level (L (world_of (log_set_level (-5) w_scenario))) <= -1) /\
  log_log false (-1) "a.cpp" 11 "x=%d" [PInt 5] w_scenario = Done tt w_scenario /\
  is_done (log_log false (-1) "a.cpp" 11 "x=%d" [PInt 5]
             (world_of (log_set_level (-5) w_scenario))) = false.
Proof.
  split; [split; [lia | split; [concrete_lia | simpl; lia]]|]. split.
  - apply (proj1 (X13_negative_level false (-1) "a.cpp" 11 "x=%d" [PInt 5]
                    w_scenario ltac:(lia))). concrete_lia.
  - apply (proj2 (X13_negative_level false (-1) "a.cpp" 11 "x=%d" [PInt 5]
                    (world_of (log_set_level (-5) w_scenario)) ltac:(lia))).
    + simpl; lia.
    + left. reflexivity.
Defined.

(** X14.  Two setters of different fields commute; of two setters of the
    same field the second wins; and [log_set_quiet] with any nonzero value
    is [log_set_quiet] with 1. *)
Theorem X14_setters_compose o1 o2 w f1 f2 :
  setter_field o1 = Some f1 -> setter_field o2 = Some f2 ->
  (f1 <> f2 -> run_ops [o1; o2] w = run_ops [o2; o1] w) /\
  (f1 = f2 -> run_ops [o1; o2] w = run_ops [o2] w) /\
  (forall e, e <> 0 -> log_set_quiet e w = log_set_quiet 1 w).
Proof.
  intros H1 H2. split; [|split].
  - intros Hne. destruct o1, o2; simpl in H1, H2; try discriminate;
      try reflexivity; congruence.
  - intros He. destruct o1, o2; simpl in H1, H2; try discriminate;
      try reflexivity; congruence.
  - intros e He. apply Z.eqb_neq in He. unfold log_set_quiet, set_L.
    now rewrite He.
Qed.

Lemma X14_witness :
  (setter_field (OpSetLevel 3) = Some 3%nat /\ setter_field (OpSetFp 9) = Some 2%nat /\
   setter_field (OpSetLevel 1) = Some 3%nat /\ 3%nat <> 2%nat /\ -7 <> 0) /\
  run_ops [OpSetLevel 3; OpSetFp 9] w_mute = run_ops [OpSetFp 9; OpSetLevel 3] w_mute /\
  run_ops [OpSetLevel 3; OpSetLevel 1] w_mute = run_ops [OpSetLevel 1] w_mute /\
  log_set_quiet (-7) w_scenario = log_set_quiet 1 w_scenario.
Proof.
  split; [repeat split; try reflexivity; lia|]. split; [|split].
  - apply (proj1 (X14_setters_compose (OpSetLevel 3) (OpSetFp 9) w_mute 3 2
                    eq_refl eq_refl)). lia.
  - apply (proj1 (proj2 (X14_setters_compose (OpSetLevel 3) (OpSetLevel 1) w_mute
                           3 3 eq_refl eq_refl))). reflexivity.
  - apply (proj2 (proj2 (X14_setters_compose (OpSetLevel 3) (OpSetLevel 1)
                           w_scenario 3 3 eq_refl eq_refl))). lia.
Defined.

(** X15.  With quiet set and no file sink a call that is not below the
    threshold, at any level, writes nothing and still reads both clocks,
    takes the mutex and calls the installed hook with 1 and with 0. *)
Theorem X15_both_sinks_off c lv file line fmt args w :
  quiet (L w) <> 0 -> fp (L w) = 0 -> level (L w) <= lv ->
  log_log c lv file line fmt args w =
  Done tt (add_events w
             ([EvClockNow; EvMutexLock] ++ hook_events (L w) 1
                ++ [EvTime; EvLocaltime] ++ hook_events (L w) 0
                ++ [EvMutexUnlock])).
Proof.
  intros Hq Hf Hl. apply Z.eqb_neq in Hq.
  destruct (valid_levelb lv) eqn:Ev.
  - apply valid_levelb_spec in Ev. rewrite log_log_emitted by assumption.
    unfold emitted_events, stderr_events, file_events.
    rewrite Hq, Hf. reflexivity.
  - assert (Hn : ~ (0 <= lv <= 5)).
    { intros H. apply valid_levelb_spec in H. congruence. }
    rewrite log_log_invalid by assumption.
    unfold sink_active, entry_events. rewrite Hq, Hf. simpl orb. cbv iota.
    rewrite <- !app_assoc. reflexivity.
Qed.

Lemma X15_witness :
  (quiet (L w_mute) <> 0 /\ fp (L w_mute) = 0 /\ level (L w_mute) <= LOG_INFO) /\
  log_log false LOG_INFO "a.cpp" 11 "x=%d" [PInt 5] w_mute =
  Done tt (add_events w_mute
             [EvClockNow; EvMutexLock; EvTime; EvLocaltime; EvMutexUnlock]).
Proof.
  split; [concrete_lia|].
  rewrite (X15_both_sinks_off false LOG_INFO "a.cpp" 11 "x=%d" [PInt 5] w_mute)
    by concrete_lia.
  reflexivity.
Defined.
